(** * The sequential match pre-processing pass of cs-ml-project

    A shallow embedding of [src/utilities/helper.py] and of the loop of
    [process_matches] in [src/pre_processing.py].

    Conventions of the embedding:
    - A computation that can raise returns a [result]: [Ok] with its value
      or [Raise] with the exception; a [try/except] is [try_except].
    - The loop threads the tables it mutates through [stores], one record
      passed from turn to turn.
    - A pandas DataFrame indexed by player id is a [gmap] from column
      label to a [gmap] from row label to the stored integer, so that
      [df[col][row]] is a double lookup that raises [KeyError] when either
      label is absent.
    - Python floats are modelled by exact rationals [Q]; [round] is
      round-half-to-even on [Q].
    - Strings are Rocq byte strings; the character classes below are the
      ASCII ones.
    - The scaling of the matrix after the loop and the reading and writing
      of files are left out. *)

From Stdlib Require Import ZArith QArith Qround Lia Lqa.
From Stdlib Require Import String Ascii.
From stdpp Require Import base gmap strings list fin_maps.
From stdpp Require Import sorting pretty.

Local Open Scope string_scope.
Local Open Scope Z_scope.

(** ** Exceptions *)

Inductive exn : Type :=
  | KeyError
  | ValueError
  | IndexError
  | TypeError.

Inductive result (A : Type) : Type :=
  | Ok (a : A)
  | Raise (e : exn).
Arguments Ok {A} a.
Arguments Raise {A} e.

Global Instance result_ret : MRet result := fun A a => Ok a.
Global Instance result_bind : MBind result := fun A B f m =>
  match m with
  | Ok a => f a
  | Raise e => Raise e
  end.

Definition from_option {A} (e : exn) (o : option A) : result A :=
  match o with
  | Some a => Ok a
  | None => Raise e
  end.

Global Instance exn_eq_dec : EqDecision exn.
Proof. solve_decision. Defined.

(** [try: m / except e: handler]: any other exception goes through. *)
Definition try_except {A} (m : result A) (e : exn) (handler : result A)
  : result A :=
  match m with
  | Ok a => Ok a
  | Raise e' => if decide (e' = e) then handler else Raise e'
  end.

(** ** Python values that reach the code from the CSV columns *)

(** A cell of an object column: a missing value ([NaN]), [None], or text. *)
Inductive pyobj : Type :=
  | ONaN
  | ONone
  | OStr (s : string).

(** [str(x)] *)
Definition py_str (x : pyobj) : string :=
  match x with
  | ONaN => "nan"
  | ONone => "None"
  | OStr s => s
  end.

(** ** String primitives *)

Definition lower_ascii (c : ascii) : ascii :=
  let n := N_of_ascii c in
  if ((65 <=? n) && (n <=? 90))%N then ascii_of_N (n + 32) else c.

(** [s.lower()] *)
Fixpoint lower (s : string) : string :=
  match s with
  | EmptyString => EmptyString
  | String c s' => String (lower_ascii c) (lower s')
  end.

(** The characters [str.split()] treats as separators:
    tab, line feed, vertical tab, form feed, carriage return,
    the four separators 0x1c-0x1f and the space. *)
Definition is_whitespace (c : ascii) : bool :=
  let n := N_of_ascii c in
  (((9 <=? n) && (n <=? 13)) || ((28 <=? n) && (n <=? 32)))%N.

(** [s.split()]: the maximal runs of non-whitespace characters.
    [cur] holds the token being read. *)
Fixpoint split_whitespace_from (cur : string) (s : string) : list string :=
  match s with
  | EmptyString => if decide (cur = "") then [] else [cur]
  | String c s' =>
      if is_whitespace c
      then (if decide (cur = "") then split_whitespace_from "" s'
            else cur :: split_whitespace_from "" s')
      else split_whitespace_from (cur ++ String c EmptyString) s'
  end.

Definition split_whitespace (s : string) : list string :=
  split_whitespace_from "" s.

(** [s.split(sep)] for a one-character separator; empty fields are kept
    and the result always has at least one field. *)
Fixpoint split_on_from (sep : ascii) (cur : string) (s : string)
  : list string :=
  match s with
  | EmptyString => [cur]
  | String c s' =>
      if decide (c = sep) then cur :: split_on_from sep "" s'
      else split_on_from sep (cur ++ String c EmptyString) s'
  end.

Definition split_on (sep : ascii) (s : string) : list string :=
  split_on_from sep "" s.

(** [''.join(c for c in s if c not in bad)] *)
Fixpoint remove_chars (bad : list ascii) (s : string) : string :=
  match s with
  | EmptyString => EmptyString
  | String c s' =>
      if decide (c ∈ bad) then remove_chars bad s'
      else String c (remove_chars bad s')
  end.

(** [s[0]]: raises [IndexError] on the empty string. *)
Definition first_char (s : string) : result ascii :=
  match s with
  | EmptyString => Raise IndexError
  | String c _ => Ok c
  end.

(** [int(c)] for a one-character string: a decimal digit or [ValueError]. *)
Definition int_of_char (c : ascii) : result Z :=
  let n := N_of_ascii c in
  if ((48 <=? n) && (n <=? 57))%N then Ok (Z.of_N n - 48) else Raise ValueError.

(** ** helper.get_surface *)

Definition get_surface (surface : pyobj) : string :=
  let surface := lower (py_str surface) in
  if decide (surface = "nan") then "hard"
  else if decide (surface = "none") then "hard"
  else surface.

(** ** helper.get_score *)

Definition weird_scoring : list ascii :=
  ["["; "]"; "R"; "E"; "T"]%char.

(** One iteration of [for s in sets]. *)
Definition score_set (acc : Z * Z) (s : string) : result (Z * Z) :=
  let '(winner_games, loser_games) := acc in
  let games := split_on "-"%char (remove_chars weird_scoring s) in
  if decide (length games = 1%nat) then Ok (winner_games, loser_games)
  else
    g0 ← from_option IndexError (games !! 0%nat);
    c0 ← first_char g0;
    w ← int_of_char c0;
    g1 ← from_option IndexError (games !! 1%nat);
    c1 ← first_char g1;
    l ← int_of_char c1;
    Ok (winner_games + w, loser_games + l).

Fixpoint score_sets (acc : Z * Z) (sets : list string) : result (Z * Z) :=
  match sets with
  | [] => Ok acc
  | s :: sets' => acc' ← score_set acc s; score_sets acc' sets'
  end.

Definition get_score (score : pyobj) : result (Z * Z) :=
  let score := py_str score in
  if decide (score = "nan") then Ok (0, 0)
  else score_sets (0, 0) (split_whitespace score).

(** Lines 183-187 of [process_matches]: only [ValueError] is caught. *)
Definition match_games (score : pyobj) : result (Z * Z) :=
  try_except (get_score score) ValueError (Ok (0, 0)).

(** ** Numbers *)

(** Python's [round(x)] with one argument: nearest integer, ties to even. *)
Definition py_round (x : Q) : Z :=
  let f := Qfloor x in
  match (x - inject_Z f ?= 1 # 2)%Q with
  | Lt => f
  | Gt => f + 1
  | Eq => if Z.even f then f else f + 1
  end.

(** ** Dates

    A pandas [Timestamp] at midnight, kept as a calendar date.  Dates are
    compared by month number first and day of month second, which is the
    chronological order. *)

Record date : Type := Date { year : Z; month : Z; day : Z }.

Global Instance date_eq_dec : EqDecision date.
Proof. solve_decision. Defined.

Definition month_index (d : date) : Z := 12 * year d + (month d - 1).

(** [a <= b] *)
Definition date_leb (a b : date) : bool :=
  (month_index a <? month_index b)
  || ((month_index a =? month_index b) && (day a <=? day b)).

(** [a > b] *)
Definition date_gtb (a b : date) : bool := negb (date_leb a b).

Definition is_leap (y : Z) : bool :=
  (y mod 4 =? 0) && (negb (y mod 100 =? 0) || (y mod 400 =? 0)).

Definition days_in_month (y m : Z) : Z :=
  if m =? 2 then (if is_leap y then 29 else 28)
  else if (m =? 4) || (m =? 6) || (m =? 9) || (m =? 11) then 30
  else 31.

(** [d - pd.DateOffset(months=n)]: the month moves back by [n] and the day
    is clipped to the length of the month reached. *)
Definition minus_months (d : date) (n : Z) : date :=
  let t := month_index d - n in
  let y := t / 12 in
  let m := t mod 12 + 1 in
  Date y m (Z.min (day d) (days_in_month y m)).

(** [d - pd.DateOffset(years=n)] *)
Definition minus_years (d : date) (n : Z) : date :=
  let y := year d - n in
  Date y (month d) (Z.min (day d) (days_in_month y (month d))).

(** Days from 1970-01-01 to the civil date. *)
Definition days_from_civil (d : date) : Z :=
  let y := if month d <=? 2 then year d - 1 else year d in
  let era := y / 400 in
  let yoe := y - era * 400 in
  let mp := if month d <=? 2 then month d + 9 else month d - 3 in
  let doy := (153 * mp + 2) / 5 + day d - 1 in
  let doe := yoe * 365 + yoe / 4 - yoe / 100 + doy in
  era * 146097 + doe - 719468.

(** [int(d.timestamp())] *)
Definition timestamp (d : date) : Z := 86400 * days_from_civil d.

(** ** DataFrames indexed by player id *)

(** [df[col][row]] *)
Definition cell {K} `{Countable K} (df : gmap K (gmap Z Z)) (col : K) (row : Z)
  : result Z :=
  s ← from_option KeyError (df !! col);
  from_option KeyError (s !! row).

(** [df[col][row] += v]: the column is a view of the frame, so the frame
    itself is updated; the read comes first, so an absent label raises
    [KeyError] and nothing is written. *)
Definition cell_add {K} `{Countable K} (df : gmap K (gmap Z Z)) (col : K)
    (row : Z) (v : Z) : result (gmap K (gmap Z Z)) :=
  s ← from_option KeyError (df !! col);
  x ← from_option KeyError (s !! row);
  Ok (<[col := <[row := x + v]> s]> df).

(** ** helper.get_relative_surface_wins *)

Definition get_relative_surface_wins (cond_stats : gmap string (gmap Z Z))
    (winner_id loser_id : Z) (surface : string) : result Q :=
  surface_wins_winner ←
    cell cond_stats ("surface_" ++ surface ++ "_wins") winner_id;
  surface_losses_winner ←
    cell cond_stats ("surface_" ++ surface ++ "_losses") winner_id;
  let surface_played_winner := surface_wins_winner + surface_losses_winner in
  surface_wins_loser ←
    cell cond_stats ("surface_" ++ surface ++ "_wins") loser_id;
  surface_losses_loser ←
    cell cond_stats ("surface_" ++ surface ++ "_losses") loser_id;
  let surface_played_loser := surface_wins_loser + surface_losses_loser in
  let rel_surface_wins_winner :=
    if decide (surface_played_winner = 0) then 0%Q
    else (inject_Z surface_wins_winner / inject_Z surface_played_winner)%Q in
  let rel_surface_wins_loser :=
    if decide (surface_played_loser = 0) then 0%Q
    else (inject_Z surface_wins_loser / inject_Z surface_played_loser)%Q in
  Ok (rel_surface_wins_winner - rel_surface_wins_loser)%Q.

(** ** helper.get_relative_total_wins *)

Definition get_relative_total_wins (cond_stats : gmap string (gmap Z Z))
    (winner_id loser_id : Z) : result Q :=
  total_wins_winner ← cell cond_stats "total_wins" winner_id;
  total_losses_winner ← cell cond_stats "total_losses" winner_id;
  let total_played_winner := total_wins_winner + total_losses_winner in
  total_wins_loser ← cell cond_stats "total_wins" loser_id;
  total_losses_loser ← cell cond_stats "total_losses" loser_id;
  let total_played_loser := total_wins_loser + total_losses_loser in
  let rel_total_wins_winner :=
    if decide (total_played_winner = 0) then 0%Q
    else (inject_Z total_wins_winner / inject_Z total_played_winner)%Q in
  let rel_total_wins_loser :=
    if decide (total_played_loser = 0) then 0%Q
    else (inject_Z total_wins_loser / inject_Z total_played_loser)%Q in
  Ok (rel_total_wins_winner - rel_total_wins_loser)%Q.

(** ** helper.get_mutual_surface_wins *)

Definition get_mutual_surface_wins (mm_clay mm_grass mm_hard : gmap Z (gmap Z Z))
    (surface : string) (winner_id loser_id : Z) : result Z :=
  if decide (surface = "clay") then
    a ← cell mm_clay winner_id loser_id;
    b ← cell mm_clay loser_id winner_id;
    Ok (a - b)
  else if decide (surface = "grass") then
    a ← cell mm_grass winner_id loser_id;
    b ← cell mm_grass loser_id winner_id;
    Ok (a - b)
  else
    a ← cell mm_hard winner_id loser_id;
    b ← cell mm_hard loser_id winner_id;
    Ok (a - b).

(** ** helper.get_rankings *)

(** One line of the ranking archive. *)
Record ranking : Type := Ranking {
  ranking_date : date;
  rank : Z;
  player : Z;
  points : Z
}.

(** [rankings.loc[rankings['player'] == id]] *)
Definition rankings_of (rankings : list ranking) (id : Z) : list ranking :=
  filter (fun r => player r = id) rankings.

(** [rs.loc[~rs.index.duplicated(keep='first')]] with the date as index;
    [seen] holds the dates already met. *)
Fixpoint drop_duplicated_from (seen : list date) (rs : list ranking)
  : list ranking :=
  match rs with
  | [] => []
  | r :: rs' =>
      if decide (ranking_date r ∈ seen) then drop_duplicated_from seen rs'
      else r :: drop_duplicated_from (ranking_date r :: seen) rs'
  end.

Definition drop_duplicated (rs : list ranking) : list ranking :=
  drop_duplicated_from [] rs.

(** [index.get_loc(key, method='pad')] on a date index in ascending order
    (the order [load_rankings] leaves the archive in): the position of the
    last entry not after [key], [KeyError] when there is none.  [pos] is
    the position of the head of [index] and [best] the last hit so far. *)
Fixpoint get_loc_pad_from (pos : nat) (best : option nat) (index : list date)
    (key : date) : option nat :=
  match index with
  | [] => best
  | d :: index' =>
      get_loc_pad_from (S pos) (if date_leb d key then Some pos else best)
        index' key
  end.

Definition get_loc_pad (index : list date) (key : date) : result nat :=
  from_option KeyError (get_loc_pad_from 0 None index key).

(** [rs.iloc[rs.index.get_loc(key, method='pad')]] *)
Definition ranking_asof (rs : list ranking) (key : date) : result ranking :=
  loc ← get_loc_pad (ranking_date <$> rs) key;
  from_option IndexError (rs !! loc).

(** [np.max(rankings['rank'])]; [None] is the NaN of an empty column. *)
Definition np_max (xs : list Z) : option Z :=
  match xs with
  | [] => None
  | x :: xs' => Some (foldr Z.max x xs')
  end.

(** The result is [(rank_diff, points_grad_diff)]; a [rank_diff] of [None]
    is NaN. *)
Definition get_rankings (rankings : list ranking) (winner_id loser_id : Z)
    (tourney_date : date) : result (option Z * Z) :=
  let winner_rankings := drop_duplicated (rankings_of rankings winner_id) in
  let loser_rankings := drop_duplicated (rankings_of rankings loser_id) in
  let highest_numbered_ranking := np_max (rank <$> rankings) in
  '(winner_current_rank, winner_current_points) ←
    try_except
      (winner_current_rank ← ranking_asof winner_rankings tourney_date;
       Ok (Some (rank winner_current_rank), points winner_current_rank))
      KeyError
      (Ok ((fun m => m + 1) <$> highest_numbered_ranking, 0));
  '(loser_current_rank, loser_current_points) ←
    try_except
      (loser_current_rank ← ranking_asof loser_rankings tourney_date;
       Ok (Some (rank loser_current_rank), points loser_current_rank))
      KeyError
      (Ok ((fun m => m + 1) <$> highest_numbered_ranking, 0));
  let rank_diff :=
    a ← winner_current_rank; b ← loser_current_rank; Some (a - b) in
  let last_year_date := minus_years tourney_date 1 in
  winner_old_points ←
    try_except
      (winner_old_rank ← ranking_asof winner_rankings last_year_date;
       Ok (points winner_old_rank))
      KeyError (Ok 0);
  loser_old_points ←
    try_except
      (loser_old_rank ← ranking_asof winner_rankings last_year_date;
       Ok (points loser_old_rank))
      KeyError (Ok 0);
  let winner_points_grad := winner_current_points - winner_old_points in
  let loser_points_grad := loser_current_points - loser_old_points in
  let points_grad_diff := winner_points_grad - loser_points_grad in
  Ok (rank_diff, points_grad_diff).

(** ** The data [process_matches] works on *)

(** A value stored in the Series [match]: an integer, a float, NaN, or an
    object that is not a number (shown by its text). *)
Inductive pyval : Type :=
  | VInt (z : Z)
  | VFloat (q : Q)
  | VNaN
  | VObj (s : string).

(** Unary minus on one value; only an object that is not a number fails. *)
Definition neg_val (v : pyval) : result pyval :=
  match v with
  | VInt z => Ok (VInt (- z))
  | VFloat q => Ok (VFloat (- q))
  | VNaN => Ok VNaN
  | VObj _ => Raise TypeError
  end.

(** One line of the raw match archive, as [itertuples] yields it. *)
Module Raw.
Record t : Type := Make {
  tourney_id : string;
  tourney_name : string;
  tourney_level : string;
  tourney_date : date;
  match_num : Z;
  surface : pyobj;
  winner_id : Z;
  winner_ioc : string;
  winner_age : option Q;
  loser_id : Z;
  loser_ioc : string;
  loser_age : option Q;
  score : pyobj
}.
End Raw.

(** One line of the output matrix, with the labels of [data_columns]. *)
Module Match.
Record t : Type := Make {
  tourney_date : pyval;
  rel_total_wins : pyval;
  rel_surface_wins : pyval;
  mutual_wins : pyval;
  mutual_surface_wins : pyval;
  mutual_games : pyval;
  rank_diff : pyval;
  points_grad_diff : pyval;
  home_advantage : pyval;
  rel_climate_wins : pyval;
  rel_recent_wins : pyval;
  rel_tourney_games : pyval;
  tourney_level : pyval;
  player_1 : pyval;
  player_2 : pyval;
  surface : pyval;
  age_diff : pyval;
  outcome : pyval
}.
End Match.

(** [-match] on the whole Series. *)
Definition series_neg (r : Match.t) : result Match.t :=
  c1 ← neg_val (Match.tourney_date r);
  c2 ← neg_val (Match.rel_total_wins r);
  c3 ← neg_val (Match.rel_surface_wins r);
  c4 ← neg_val (Match.mutual_wins r);
  c5 ← neg_val (Match.mutual_surface_wins r);
  c6 ← neg_val (Match.mutual_games r);
  c7 ← neg_val (Match.rank_diff r);
  c8 ← neg_val (Match.points_grad_diff r);
  c9 ← neg_val (Match.home_advantage r);
  c10 ← neg_val (Match.rel_climate_wins r);
  c11 ← neg_val (Match.rel_recent_wins r);
  c12 ← neg_val (Match.rel_tourney_games r);
  c13 ← neg_val (Match.tourney_level r);
  c14 ← neg_val (Match.player_1 r);
  c15 ← neg_val (Match.player_2 r);
  c16 ← neg_val (Match.surface r);
  c17 ← neg_val (Match.age_diff r);
  c18 ← neg_val (Match.outcome r);
  Ok (Match.Make c1 c2 c3 c4 c5 c6 c7 c8 c9 c10 c11 c12 c13 c14 c15 c16 c17
        c18).

(** One line of [tourneys_fixed.csv]. *)
Record tourney : Type := Tourney {
  location : string;
  climate : string
}.

(** The tables the loop reads and mutates, the window of recent matches
    with its two dates, and what the loop has printed. *)
Record stores : Type := Stores {
  cond_stats : gmap string (gmap Z Z);
  mutual_matches : gmap Z (gmap Z Z);
  mutual_matches_clay : gmap Z (gmap Z Z);
  mutual_matches_grass : gmap Z (gmap Z Z);
  mutual_matches_hard : gmap Z (gmap Z Z);
  mutual_score : gmap Z (gmap Z Z);
  recent_matches : list Raw.t;
  current_tourney_date : date;
  date_limit : date;
  printed : list Match.t
}.

Definition month_offset : Z := 3.

(** [recent_matches.loc[recent_matches.tourney_date >= date_limit]] *)
Definition not_before (limit : date) (ms : list Raw.t) : list Raw.t :=
  filter (fun m => date_leb limit (Raw.tourney_date m) = true) ms.

(** Lines 81-84: the window follows the tournament date. *)
Definition advance_window (st : stores) (tourney_date : date) : stores :=
  if date_gtb tourney_date (current_tourney_date st) then
    let current_tourney_date := tourney_date in
    let date_limit := minus_months current_tourney_date month_offset in
    Stores (cond_stats st) (mutual_matches st) (mutual_matches_clay st)
      (mutual_matches_grass st) (mutual_matches_hard st) (mutual_score st)
      (not_before date_limit (recent_matches st))
      current_tourney_date date_limit (printed st)
  else st.

(** Lines 72-78: the climate of the tournament's location. *)
Definition climate_of (tourneys : list tourney) (location_name : string)
  : string :=
  match filter (fun t => location t = location_name) tourneys with
  | t :: _ => climate t
  | [] => "tempered"
  end.

Definition float_diff (a b : option Q) : pyval :=
  match a, b with
  | Some x, Some y => VFloat (x - y)
  | _, _ => VNaN
  end.

Definition int_or_nan (z : option Z) : pyval :=
  match z with
  | Some z => VInt z
  | None => VNaN
  end.

(** Lines 138-143: every other line is negated.  When the negation raises
    [TypeError] the Series is printed and kept as it is.  The second
    component is what was printed. *)
Definition balance (i : nat) (match_ : Match.t)
  : result (Match.t * list Match.t) :=
  if Nat.even i then
    try_except (negated ← series_neg match_; Ok (negated, []))
      TypeError (Ok (match_, [match_]))
  else Ok (match_, []).

(** ** The loop of process_matches *)

(** The arguments of [process_matches], the tables it loads, and the
    helper functions the loop calls whose bodies are not in [helper.py].
    The loop calls [get_time_weight] with the tournament date alone; the
    weight is a float, here a rational, that depends on that date. *)
Record environment : Type := Environment {
  t_weights : gmap string Q;
  base_weight : Z;
  t_levels : gmap string Z;
  surfaces : gmap string Z;
  rankings : list ranking;
  tourneys : list tourney;
  get_time_weight : date -> Q;
  filter_tourney_name : string -> string;
  get_home_advantage :
    string -> string -> list tourney -> string -> result pyval;
  get_relative_climate_wins :
    gmap string (gmap Z Z) -> Z -> Z -> string -> result Q;
  get_recent_performance :
    Z -> Z -> list Raw.t -> date -> result Q;
  get_tourney_games :
    Z -> Z -> list Raw.t -> string -> Z -> result pyval
}.

Section ProcessMatches.

Variable env : environment.

(** [round(base_weight * x)] *)
Definition scaled (x : Q) : Z := py_round (inject_Z (base_weight env) * x).

(** Line 162 *)
Definition match_d_weight (raw_match : Raw.t) : Z :=
  py_round (inject_Z (base_weight env)
            * get_time_weight env (Raw.tourney_date raw_match)).

(** Line 163 *)
Definition match_dt_weight (raw_match : Raw.t) : result Z :=
  w ← from_option KeyError (t_weights env !! Raw.tourney_level raw_match);
  Ok (py_round (inject_Z (base_weight env)
                * get_time_weight env (Raw.tourney_date raw_match) * w)).

(** Lines 189-190: [round(base_weight * time_weight * games)] *)
Definition games_weight (raw_match : Raw.t) (games : Z) : Z :=
  py_round (inject_Z (base_weight env)
            * get_time_weight env (Raw.tourney_date raw_match)
            * inject_Z games).

Definition match_climate (raw_match : Raw.t) : string :=
  climate_of (tourneys env)
    (filter_tourney_name env (Raw.tourney_name raw_match)).

(** Lines 86-135: the Series [match] once every feature has been read
    from the stores; the five columns set after balancing still hold the
    zero they start with. *)
Definition read_features (st : stores) (raw_match : Raw.t) : result Match.t :=
  let winner_id := Raw.winner_id raw_match in
  let loser_id := Raw.loser_id raw_match in
  let tourney_date := Raw.tourney_date raw_match in
  let surface := get_surface (Raw.surface raw_match) in
  let climate := match_climate raw_match in
  rel_total_wins ← get_relative_total_wins (cond_stats st) winner_id loser_id;
  rel_surface_wins ←
    get_relative_surface_wins (cond_stats st) winner_id loser_id surface;
  mw ← cell (mutual_matches st) winner_id loser_id;
  ml ← cell (mutual_matches st) loser_id winner_id;
  let mutual_wins := mw - ml in
  mutual_surface_wins ←
    get_mutual_surface_wins (mutual_matches_clay st) (mutual_matches_grass st)
      (mutual_matches_hard st) surface winner_id loser_id;
  gw ← cell (mutual_score st) winner_id loser_id;
  gl ← cell (mutual_score st) loser_id winner_id;
  let mutual_games := gw - gl in
  '(rank_diff, points_grad_diff) ←
    get_rankings (rankings env) winner_id loser_id tourney_date;
  home_advantage ←
    get_home_advantage env (Raw.winner_ioc raw_match)
      (Raw.loser_ioc raw_match) (tourneys env) (Raw.tourney_name raw_match);
  rel_climate_wins ←
    get_relative_climate_wins env (cond_stats st) winner_id loser_id climate;
  rel_recent_wins ←
    get_recent_performance env winner_id loser_id (recent_matches st)
      tourney_date;
  rel_tourney_games ←
    get_tourney_games env winner_id loser_id (recent_matches st)
      (Raw.tourney_id raw_match) (Raw.match_num raw_match);
  let age_diff :=
    float_diff (Raw.winner_age raw_match) (Raw.loser_age raw_match) in
  Ok {| Match.tourney_date := VInt 0;
        Match.rel_total_wins := VInt (scaled rel_total_wins);
        Match.rel_surface_wins := VInt (scaled rel_surface_wins);
        Match.mutual_wins := VInt mutual_wins;
        Match.mutual_surface_wins := VInt mutual_surface_wins;
        Match.mutual_games := VInt mutual_games;
        Match.rank_diff := int_or_nan rank_diff;
        Match.points_grad_diff := VInt points_grad_diff;
        Match.home_advantage := home_advantage;
        Match.rel_climate_wins := VInt (scaled rel_climate_wins);
        Match.rel_recent_wins := VInt (scaled rel_recent_wins);
        Match.rel_tourney_games := rel_tourney_games;
        Match.tourney_level := VInt 0;
        Match.player_1 := VInt 0;
        Match.player_2 := VInt 0;
        Match.surface := VInt 0;
        Match.age_diff := age_diff;
        Match.outcome := VInt 1 |}.

(** Lines 145-151: the columns set after balancing. *)
Definition set_non_numeric (match_ : Match.t) (raw_match : Raw.t)
  : result Match.t :=
  level ← from_option KeyError (t_levels env !! Raw.tourney_level raw_match);
  surf ←
    from_option KeyError (surfaces env !! get_surface (Raw.surface raw_match));
  Ok {| Match.tourney_date := VInt (timestamp (Raw.tourney_date raw_match));
        Match.rel_total_wins := Match.rel_total_wins match_;
        Match.rel_surface_wins := Match.rel_surface_wins match_;
        Match.mutual_wins := Match.mutual_wins match_;
        Match.mutual_surface_wins := Match.mutual_surface_wins match_;
        Match.mutual_games := Match.mutual_games match_;
        Match.rank_diff := Match.rank_diff match_;
        Match.points_grad_diff := Match.points_grad_diff match_;
        Match.home_advantage := Match.home_advantage match_;
        Match.rel_climate_wins := Match.rel_climate_wins match_;
        Match.rel_recent_wins := Match.rel_recent_wins match_;
        Match.rel_tourney_games := Match.rel_tourney_games match_;
        Match.tourney_level := VInt level;
        Match.player_1 := VInt (Raw.winner_id raw_match);
        Match.player_2 := VInt (Raw.loser_id raw_match);
        Match.surface := VInt surf;
        Match.age_diff := Match.age_diff match_;
        Match.outcome := Match.outcome match_ |}.

(** Lines 165-170: the per-player counters. *)
Definition update_cond_stats (cs : gmap string (gmap Z Z)) (raw_match : Raw.t)
    : result (gmap string (gmap Z Z)) :=
  let winner_id := Raw.winner_id raw_match in
  let loser_id := Raw.loser_id raw_match in
  let surface := get_surface (Raw.surface raw_match) in
  let climate := match_climate raw_match in
  let match_d_weight := match_d_weight raw_match in
  match_dt_weight ← match_dt_weight raw_match;
  cs ← cell_add cs "total_wins" winner_id match_dt_weight;
  cs ← cell_add cs ("surface_" ++ surface ++ "_wins") winner_id match_d_weight;
  cs ← cell_add cs ("climate_" ++ climate ++ "_wins") winner_id match_d_weight;
  cs ← cell_add cs "total_losses" loser_id match_dt_weight;
  cs ← cell_add cs ("surface_" ++ surface ++ "_losses") loser_id match_d_weight;
  cell_add cs ("climate_" ++ climate ++ "_losses") loser_id match_d_weight.

(** Lines 176-181: the table of the match's surface. *)
Definition update_surface_tables (mm_clay mm_grass mm_hard : gmap Z (gmap Z Z))
    (raw_match : Raw.t)
    : result (gmap Z (gmap Z Z) * gmap Z (gmap Z Z) * gmap Z (gmap Z Z)) :=
  let winner_id := Raw.winner_id raw_match in
  let loser_id := Raw.loser_id raw_match in
  let surface := get_surface (Raw.surface raw_match) in
  if decide (surface = "clay") then
    mm_clay ← cell_add mm_clay winner_id loser_id (match_d_weight raw_match);
    Ok (mm_clay, mm_grass, mm_hard)
  else if decide (surface = "grass") then
    mm_grass ← cell_add mm_grass winner_id loser_id (match_d_weight raw_match);
    Ok (mm_clay, mm_grass, mm_hard)
  else
    mm_hard ← cell_add mm_hard winner_id loser_id (match_d_weight raw_match);
    Ok (mm_clay, mm_grass, mm_hard).

(** Lines 183-190: the games table. *)
Definition update_mutual_score (ms : gmap Z (gmap Z Z)) (raw_match : Raw.t)
    : result (gmap Z (gmap Z Z)) :=
  let winner_id := Raw.winner_id raw_match in
  let loser_id := Raw.loser_id raw_match in
  '(winner_games, loser_games) ← match_games (Raw.score raw_match);
  ms ← cell_add ms winner_id loser_id (games_weight raw_match winner_games);
  cell_add ms loser_id winner_id (games_weight raw_match loser_games).

(** Lines 156-190: the match joins the window, then the tables are
    updated. *)
Definition update_stores (st : stores) (raw_match : Raw.t) : result stores :=
  let recent := (recent_matches st ++ [raw_match])%list in
  cs ← update_cond_stats (cond_stats st) raw_match;
  mm ← cell_add (mutual_matches st) (Raw.winner_id raw_match)
         (Raw.loser_id raw_match) (match_d_weight raw_match);
  '(mm_clay, mm_grass, mm_hard) ←
    update_surface_tables (mutual_matches_clay st) (mutual_matches_grass st)
      (mutual_matches_hard st) raw_match;
  ms ← update_mutual_score (mutual_score st) raw_match;
  Ok (Stores cs mm mm_clay mm_grass mm_hard ms recent
        (current_tourney_date st) (date_limit st) (printed st)).

Definition print (st : stores) (out : list Match.t) : stores :=
  Stores (cond_stats st) (mutual_matches st) (mutual_matches_clay st)
    (mutual_matches_grass st) (mutual_matches_hard st) (mutual_score st)
    (recent_matches st) (current_tourney_date st) (date_limit st)
    (printed st ++ out)%list.

(** One turn of the loop at index [i]: the line written to
    [matches.iloc[i]] and the stores after the updates. *)
Definition loop_body (st : stores) (i : nat) (raw_match : Raw.t)
    : result (Match.t * stores) :=
  let st := advance_window st (Raw.tourney_date raw_match) in
  features ← read_features st raw_match;
  '(match_, out) ← balance i features;
  let st := print st out in
  row ← set_non_numeric match_ raw_match;
  st ← update_stores st raw_match;
  Ok (row, st).

(** The loop from index [i] on: the lines written and the final stores. *)
Fixpoint process_loop (st : stores) (i : nat) (raw_matches : list Raw.t)
    : result (list Match.t * stores) :=
  match raw_matches with
  | [] => Ok ([], st)
  | raw_match :: rest =>
      '(row, st) ← loop_body st i raw_match;
      '(rows, st) ← process_loop st (S i) rest;
      Ok (row :: rows, st)
  end.

(** [a + b] on two frames with the same labels; labels that are not in
    both frames (NaN in pandas) are left out. *)
Definition frame_add (a b : gmap Z (gmap Z Z)) : gmap Z (gmap Z Z) :=
  intersection_with
    (fun s1 s2 => Some (intersection_with (fun x y => Some (x + y)) s1 s2)) a b.

(** Lines 16-45: the stores before the first turn.  [raw_matches] is the
    archive after [sort_values], [last_year_matches] what
    [load_matches(recent_years)] returns. *)
Definition initial_stores (mm_clay mm_grass mm_hard ms : gmap Z (gmap Z Z))
    (cs : gmap string (gmap Z Z)) (raw_matches last_year_matches : list Raw.t)
    : result stores :=
  first ← from_option IndexError (raw_matches !! 0%nat);
  let current_tourney_date := Raw.tourney_date first in
  let date_limit := minus_months current_tourney_date month_offset in
  Ok (Stores cs (frame_add (frame_add mm_clay mm_grass) mm_hard)
        mm_clay mm_grass mm_hard ms
        (not_before date_limit last_year_matches)
        current_tourney_date date_limit []).


End ProcessMatches.

(** ** Notions used to state the properties *)

(** The share of won matches, [0] for a player who has not played. *)
Definition win_ratio (wins losses : Z) : Q :=
  if decide (wins + losses = 0) then 0%Q
  else (inject_Z wins / inject_Z (wins + losses))%Q.

(** The points of a player's last ranking not after [d], [0] when the
    player's own history has none. *)
Definition points_asof (rankings : list ranking) (id : Z) (d : date) : Z :=
  match ranking_asof (drop_duplicated (rankings_of rankings id)) d with
  | Ok r => points r
  | Raise _ => 0
  end.

(** The one-year points gradient difference in the words of the
    specification: each player's gradient is taken in that player's own
    history. *)
Definition points_grad_diff_by_own_history (rankings : list ranking)
    (winner_id loser_id : Z) (d : date) : Z :=
  (points_asof rankings winner_id d
   - points_asof rankings winner_id (minus_years d 1))
  - (points_asof rankings loser_id d
     - points_asof rankings loser_id (minus_years d 1)).



(** The head-to-head table the loop uses for a surface. *)
Definition surface_table (st : stores) (surface : string) : gmap Z (gmap Z Z) :=
  if decide (surface = "clay") then mutual_matches_clay st
  else if decide (surface = "grass") then mutual_matches_grass st
  else mutual_matches_hard st.













(** The entry [df[col][row]] can be read: both labels are present. *)
Definition readable {K} `{Countable K} (df : gmap K (gmap Z Z)) (col : K)
    (row : Z) : Prop :=
  exists x, cell df col row = Ok x.

(** The entries of [cond_stats], as (column, player), that the update
    for a match adds to: lines 165-170 in their order. *)
Definition updated_counters (env : environment) (raw_match : Raw.t)
    : list (string * Z) :=
  let surface := get_surface (Raw.surface raw_match) in
  let climate := match_climate env raw_match in
  [ ("total_wins", Raw.winner_id raw_match);
    ("surface_" ++ surface ++ "_wins", Raw.winner_id raw_match);
    ("climate_" ++ climate ++ "_wins", Raw.winner_id raw_match);
    ("total_losses", Raw.loser_id raw_match);
    ("surface_" ++ surface ++ "_losses", Raw.loser_id raw_match);
    ("climate_" ++ climate ++ "_losses", Raw.loser_id raw_match) ].



(** ** A small archive to run the loop on *)

Module Fixture.

Definition t_weights : gmap string Q := <["A" := 1%Q]> {["G" := 2%Q]}.
Definition base_weight : Z := 10.
Definition t_levels : gmap string Z := <["A" := 1]> {["G" := 0]}.
Definition surfaces : gmap string Z :=
  <["clay" := 0]> (<["grass" := 1]> {["hard" := 2]}).

Definition rankings : list ranking :=
  [ Ranking (Date 2017 1 2) 10 1 100;
    Ranking (Date 2017 1 2) 20 2 500;
    Ranking (Date 2018 1 1) 5 1 300;
    Ranking (Date 2018 1 1) 8 2 700 ].

Definition tourneys : list tourney :=
  [ Tourney "Paris" "tempered"; Tourney "Miami" "tropical" ].

Definition get_time_weight (d : date) : Q := 43 # 100.
Definition filter_tourney_name (name : string) : string := name.
Definition get_home_advantage (winner_ioc loser_ioc : string)
    (ts : list tourney) (name : string) : result pyval :=
  Ok (VInt (if decide (winner_ioc = "FRA") then 1 else 0)).
(** A home advantage that is not a number. *)
Definition get_home_advantage_text (winner_ioc loser_ioc : string)
    (ts : list tourney) (name : string) : result pyval :=
  Ok (VObj "home").
Definition get_relative_climate_wins (cs : gmap string (gmap Z Z))
    (winner_id loser_id : Z) (c : string) : result Q := Ok 0%Q.
Definition get_recent_performance (winner_id loser_id : Z)
    (recent : list Raw.t) (d : date) : result Q :=
  Ok (inject_Z (Z.of_nat (length recent)) / 10)%Q.
Definition get_tourney_games (winner_id loser_id : Z) (recent : list Raw.t)
    (tourney_id : string) (match_num : Z) : result pyval := Ok (VInt 0).

Definition column (one two three : Z) : gmap Z Z :=
  <[1 := one]> (<[2 := two]> {[3 := three]}).

Definition cond_stats : gmap string (gmap Z Z) :=
  list_to_map
    [ ("total_wins", column 3 0 1); ("total_losses", column 1 0 1);
      ("surface_clay_wins", column 1 0 0); ("surface_clay_losses", column 0 0 1);
      ("surface_grass_wins", column 0 0 0); ("surface_grass_losses", column 0 0 0);
      ("surface_hard_wins", column 2 0 1); ("surface_hard_losses", column 1 0 0);
      ("climate_tempered_wins", column 2 0 1);
      ("climate_tempered_losses", column 1 0 0);
      ("climate_tropical_wins", column 1 0 0);
      ("climate_tropical_losses", column 0 0 1) ].

Definition zeros : gmap Z (gmap Z Z) :=
  <[1 := column 0 0 0]> (<[2 := column 0 0 0]> {[3 := column 0 0 0]}).

Definition first_match : Raw.t :=
  Raw.Make "2018-01" "Paris" "A" (Date 2018 1 8) 1 (OStr "Clay")
    1 "FRA" (Some (25 # 1)) 2 "ESP" (Some (49 # 2)) (OStr "6-4 6-4").

Definition second_match : Raw.t :=
  Raw.Make "2018-02" "Quito" "G" (Date 2018 5 14) 1 ONaN
    2 "ESP" (Some (99 # 4)) 1 "FRA" (Some (51 # 2)) (OStr "6-4 RET").

Definition third_match : Raw.t :=
  Raw.Make "2018-02" "Quito" "G" (Date 2018 5 14) 2 ONaN
    3 "USA" (Some (30 # 1)) 2 "ESP" (Some (99 # 4)) (OStr "7-6(5) 6-3").

Definition archive : list Raw.t := [first_match; second_match; third_match].

(** The first match with a score cut short. *)
Definition truncated_match : Raw.t :=
  Raw.Make "2018-01" "Paris" "A" (Date 2018 1 8) 1 (OStr "Clay")
    1 "FRA" (Some (25 # 1)) 2 "ESP" (Some (49 # 2)) (OStr "6-").

Definition last_year : list Raw.t :=
  [ Raw.Make "2017-08" "Miami" "A" (Date 2017 9 4) 1 (OStr "Hard")
      3 "USA" (Some (29 # 1)) 1 "FRA" (Some (24 # 1)) (OStr "6-0 6-0");
    Raw.Make "2017-11" "Paris" "A" (Date 2017 11 6) 1 (OStr "Hard")
      1 "FRA" (Some (24 # 1)) 3 "USA" (Some (29 # 1)) (OStr "6-1 6-1") ].

Definition initial : stores :=
  match initial_stores zeros zeros zeros zeros cond_stats archive last_year with
  | Ok st => st
  | Raise _ =>
      Stores cond_stats zeros zeros zeros zeros zeros [] (Date 2018 1 8)
        (Date 2017 10 8) []
  end.

Definition env : environment :=
  Environment t_weights base_weight t_levels surfaces rankings tourneys
    get_time_weight filter_tourney_name get_home_advantage
    get_relative_climate_wins get_recent_performance get_tourney_games.

(** The same with a home advantage that is not a number. *)
Definition env_text : environment :=
  Environment t_weights base_weight t_levels surfaces rankings tourneys
    get_time_weight filter_tourney_name get_home_advantage_text
    get_relative_climate_wins get_recent_performance get_tourney_games.

(** The lines and the stores after the first turn of the loop, and
    after the whole archive. *)
Definition first_turn : list Match.t * stores :=
  match process_loop env initial 0 [first_match] with
  | Ok r => r
  | Raise _ => ([], initial)
  end.

Definition run : list Match.t * stores :=
  match process_loop env initial 0 archive with
  | Ok r => r
  | Raise _ => ([], initial)
  end.


(** The Series of the first match before balancing, with the home
    advantage that is not a number. *)
Definition features_text : Match.t :=
  match read_features env_text initial first_match with
  | Ok features => features
  | Raise _ =>
      Match.Make VNaN VNaN VNaN VNaN VNaN VNaN VNaN VNaN VNaN VNaN VNaN VNaN
        VNaN VNaN VNaN VNaN VNaN VNaN
  end.


(** The stores after the update for the first match alone. *)
Definition after_first : stores :=
  match update_stores env initial first_match with
  | Ok st => st
  | Raise _ => initial
  end.

End Fixture.

(** ** The rest of helper.py *)

(** *** helper.get_time_weight

    The weight itself is [exp] of the exponent below, a float that is not
    computed here; the days and the exponent are. *)

(** Line 54: the days from [current_date] to the first of January after
    [base_year]. *)
Definition time_delta (base_year : Z) (current_date : date) : Z :=
  days_from_civil (Date (base_year + 1) 1 1) - days_from_civil current_date.

(** Line 55: the argument of [np.exp]. *)
Definition time_weight_exponent (base_year : Z) (current_date : date)
    (sign : Z) : Q :=
  (inject_Z (- sign * time_delta base_year current_date)
   / inject_Z (365 * 3))%Q.

(** A date of the calendar. *)
Definition valid_date (d : date) : Prop :=
  1 <= month d <= 12 /\ 1 <= day d <= days_in_month (year d) (month d).

(** *** helper.load_matches *)

(** One line of the frame [load_matches] returns: the six columns it
    keeps. *)
Module Loaded.
Record t : Type := Make {
  winner_id : Z;
  loser_id : Z;
  tourney_date : date;
  tourney_level : string;
  surface : pyobj;
  score : pyobj
}.
End Loaded.

(** [matches.filter([...])]: the columns that are kept. *)
Definition keep_columns (m : Raw.t) : Loaded.t :=
  Loaded.Make (Raw.winner_id m) (Raw.loser_id m) (Raw.tourney_date m)
    (Raw.tourney_level m) (Raw.surface m) (Raw.score m).

(** [range(a, b)] *)
Definition py_range (a b : Z) : list Z := seqZ a (b - a).

(** [pd.concat(frames)]: raises [ValueError] when there is no frame. *)
Definition pd_concat {A} (frames : list (list A)) : result (list A) :=
  match frames with
  | [] => Raise ValueError
  | _ => Ok (mjoin frames)
  end.

(** The three frames read for one year, in the order of lines 29-36.
    [read_csv name] is the content of the file [name] of the raw
    directory. *)
Definition year_frames (read_csv : string -> list Raw.t) (year : Z)
  : list (list Raw.t) :=
  [ read_csv ("atp_matches_futures_" ++ pretty year ++ ".csv");
    read_csv ("atp_matches_qual_chall_" ++ pretty year ++ ".csv");
    read_csv ("atp_matches_" ++ pretty year ++ ".csv") ].

(** [years_from] and [years_to] are [years['from']] and [years['to']];
    [player_ids] is [None] when the argument is left out. *)
Definition load_matches (read_csv : string -> list Raw.t)
    (years_from years_to : Z) (player_ids : option (list Z))
  : result (list Loaded.t) :=
  let frames : list (list Raw.t) :=
    py_range years_from (years_to + 1) ≫= year_frames read_csv in
  matches ← pd_concat frames;
  let matches : list Raw.t :=
    match player_ids with
    | Some ids =>
        filter (fun m => Raw.winner_id m ∈ ids \/ Raw.loser_id m ∈ ids) matches
    | None => matches
    end in
  Ok (keep_columns <$> matches).

(** *** helper.extract_player_ids *)

(** [np.unique(xs)]: the values of [xs] in ascending order, each once. *)
Definition np_unique (xs : list Z) : list Z :=
  remove_dups (merge_sort Z.le xs).

Definition extract_player_ids (read_csv : string -> list Raw.t)
    (years_from years_to : Z) : result (list Z) :=
  matches ← load_matches read_csv years_from years_to None;
  let winner_ids := Loaded.winner_id <$> matches in
  let loser_ids := Loaded.loser_id <$> matches in
  Ok (np_unique (winner_ids ++ loser_ids)%list).

(** ** More notions used to state properties *)

(** The rank [get_rankings] uses for a player on a date: the rank of the
    as-of line of the player's history, or one more than the highest rank
    of the archive when there is none ([None] is NaN). *)
Definition rank_asof (rankings : list ranking) (id : Z) (d : date) : option Z :=
  match ranking_asof (drop_duplicated (rankings_of rankings id)) d with
  | Ok r => Some (rank r)
  | Raise _ => (fun m => m + 1) <$> np_max (rank <$> rankings)
  end.








(** The results of a helper called with the two players in the two
    orders: two values that [opp] relates, or [KeyError] both times. *)
Definition both_or_neither {A} (opp : A -> A -> Prop) (r r' : result A) : Prop :=
  match r, r' with
  | Ok x, Ok y => opp x y
  | Raise e, Raise e' => e = KeyError /\ e' = KeyError
  | _, _ => False
  end.

(** The match with the two players in the other order. *)
Definition swap_players (m : Raw.t) : Raw.t :=
  Raw.Make (Raw.tourney_id m) (Raw.tourney_name m) (Raw.tourney_level m)
    (Raw.tourney_date m) (Raw.match_num m) (Raw.surface m)
    (Raw.loser_id m) (Raw.loser_ioc m) (Raw.loser_age m)
    (Raw.winner_id m) (Raw.winner_ioc m) (Raw.winner_age m) (Raw.score m).

(** The features of a line that are computed by [helper.py] and by the
    loop itself from the two player ids. *)
Definition symmetric_features (r : Match.t) : list pyval :=
  [ Match.rel_total_wins r; Match.rel_surface_wins r; Match.mutual_wins r;
    Match.mutual_surface_wins r; Match.mutual_games r; Match.rank_diff r;
    Match.points_grad_diff r ].


(** The matches [load_matches] keeps of those it has read. *)
Definition wanted (player_ids : option (list Z)) (matches : list Raw.t)
  : list Raw.t :=
  match player_ids with
  | Some ids =>
      filter (fun m => Raw.winner_id m ∈ ids \/ Raw.loser_id m ∈ ids) matches
  | None => matches
  end.

(** An entry of a ranking history dated after [key]. *)
Definition after (key : date) (r : ranking) : Prop :=
  date_leb (ranking_date r) key = false.

(** ** A small raw directory *)

Module Sample.

Definition match_of (date : date) (winner loser : Z) (score : string) : Raw.t :=
  Raw.Make "t" "Paris" "A" date 1 (OStr "Clay") winner "FRA" None loser "ESP"
    None (OStr score).

Definition read_csv (name : string) : list Raw.t :=
  if decide (name = "atp_matches_futures_2017.csv") then
    [ match_of (Date 2017 3 6) 7 4 "6-4 6-4" ]
  else if decide (name = "atp_matches_qual_chall_2017.csv") then
    [ match_of (Date 2017 2 6) 4 9 "6-4 10-8" ]
  else if decide (name = "atp_matches_2017.csv") then
    [ match_of (Date 2017 1 9) 2 7 "7-6(5) 6-3"; match_of (Date 2017 5 1) 9 2 "W/O" ]
  else if decide (name = "atp_matches_2018.csv") then
    [ match_of (Date 2018 1 8) 2 4 "6-1 6-1" ]
  else [].

(** The Series of the first match of the archive before balancing, and
    with the two players in the other order. *)
Definition features : Match.t :=
  match read_features Fixture.env Fixture.initial Fixture.first_match with
  | Ok f => f
  | Raise _ => Fixture.features_text
  end.

Definition features_swapped : Match.t :=
  match read_features Fixture.env Fixture.initial
          (swap_players Fixture.first_match) with
  | Ok f => f
  | Raise _ => Fixture.features_text
  end.

End Sample.

(** * Properties *)

(** ** The primitives on small inputs *)

Example get_score_three_sets : get_score (OStr "6-4 3-6 7-5") = Ok (16, 15).
Proof. reflexivity. Qed.

Example get_score_retired : get_score (OStr "6-4 RET") = Ok (6, 4).
Proof. reflexivity. Qed.

Example get_score_absent : get_score ONaN = Ok (0, 0).
Proof. reflexivity. Qed.

Example get_score_unknown : get_score (OStr "unknown") = Ok (0, 0).
Proof. reflexivity. Qed.

Example get_score_tiebreak : get_score (OStr "7-6(5) 6-3") = Ok (13, 9).
Proof. reflexivity. Qed.

Example match_games_not_digit : match_games (OStr "6-4 a-b") = Ok (0, 0).
Proof. reflexivity. Qed.

Example py_round_down : py_round (12 # 5) = 2.
Proof. reflexivity. Qed.

Example py_round_tie_even : py_round (5 # 2) = 2 /\ py_round (7 # 2) = 4.
Proof. split; reflexivity. Qed.

Example py_round_negative : py_round (- (3 # 4)) = -1.
Proof. reflexivity. Qed.

Example timestamp_epoch : timestamp (Date 1970 1 1) = 0.
Proof. reflexivity. Qed.

Example timestamp_2018 : timestamp (Date 2018 3 1) = 1519862400.
Proof. reflexivity. Qed.

Example minus_months_wraps : minus_months (Date 2018 2 10) 3 = Date 2017 11 10.
Proof. reflexivity. Qed.

Example minus_months_clips : minus_months (Date 2018 5 31) 3 = Date 2018 2 28.
Proof. reflexivity. Qed.

Example minus_years_leap : minus_years (Date 2016 2 29) 1 = Date 2015 2 28.
Proof. reflexivity. Qed.

(** ** The error monad *)

Lemma bind_Ok {A B} (m : result A) (f : A -> result B) (b : B) :
  m ≫= f = Ok b <-> exists a, m = Ok a /\ f a = Ok b.
Proof.
  destruct m as [a|e]; simpl; split.
  - intros Hf. exists a. auto.
  - intros (a' & Ha & Hf). injection Ha as ->. exact Hf.
  - discriminate.
  - intros (a' & Ha & _). discriminate.
Qed.

Lemma bind_of_Ok {A B} (a : A) (f : A -> result B) : Ok a ≫= f = f a.
Proof. reflexivity. Qed.

Lemma from_option_Ok {A} (e : exn) (o : option A) (a : A) :
  from_option e o = Ok a <-> o = Some a.
Proof. destruct o; simpl; split; congruence. Qed.

(** Splits a successful sequence [x ← m; k] into its two steps. *)
Tactic Notation "bind_inv" hyp(H) "as" simple_intropattern(x) ident(Hx) :=
  apply bind_Ok in H; destruct H as (x & Hx & H).

(** ** Frames *)

Lemma cell_Ok {K} `{Countable K} (df : gmap K (gmap Z Z)) col row x :
  cell df col row = Ok x <-> exists s, df !! col = Some s /\ s !! row = Some x.
Proof.
  unfold cell. rewrite bind_Ok. split.
  - intros (s & Hs & Hx). exists s. by rewrite <- !from_option_Ok with (e := KeyError).
  - intros (s & Hs & Hx). exists s. by rewrite !from_option_Ok.
Qed.

(** [df[col][row] += v] succeeds exactly when the entry can be read, adds
    [v] to it and leaves every other entry as it was. *)
Lemma cell_add_Ok {K} `{Countable K} (df df' : gmap K (gmap Z Z)) col row v :
  cell_add df col row v = Ok df' ->
  (exists x, cell df col row = Ok x /\ cell df' col row = Ok (x + v))
  /\ (forall col' row', (col', row') ≠ (col, row) ->
        cell df' col' row' = cell df col' row').
Proof.
  unfold cell_add. intros Hadd.
  bind_inv Hadd as s Hx. bind_inv Hadd as x Hx0.
  apply from_option_Ok in Hx, Hx0. injection Hadd as <-. split.
  - exists x. split.
    + apply cell_Ok. eauto.
    + apply cell_Ok. exists (<[row := x + v]> s).
      by rewrite !lookup_insert_eq.
  - intros col' row' Hne. unfold cell.
    destruct (decide (col' = col)) as [->|Hcol].
    + rewrite lookup_insert_eq, Hx. simpl.
      rewrite lookup_insert_ne; [done | congruence].
    + by rewrite lookup_insert_ne.
Qed.

Lemma cell_add_same {K} `{Countable K} (df df' : gmap K (gmap Z Z)) col row v x :
  cell_add df col row v = Ok df' -> cell df col row = Ok x ->
  cell df' col row = Ok (x + v).
Proof.
  intros Hadd Hx. apply cell_add_Ok in Hadd as [(y & Hy & Hy') _]. congruence.
Qed.

Lemma cell_add_other {K} `{Countable K} (df df' : gmap K (gmap Z Z)) col row v col' row' :
  cell_add df col row v = Ok df' -> (col', row') ≠ (col, row) ->
  cell df' col' row' = cell df col' row'.
Proof. intros Hadd. apply cell_add_Ok in Hadd as [_ Hother]. apply Hother. Qed.

Lemma cell_add_defined {K} `{Countable K} (df : gmap K (gmap Z Z)) col row v x :
  cell df col row = Ok x -> exists df', cell_add df col row v = Ok df'.
Proof.
  intros (s & Hs & Hx)%cell_Ok. unfold cell_add. rewrite Hs. simpl.
  rewrite Hx. simpl. eauto.
Qed.

(** ** The score parser *)

(** A set without a dash once the markers are removed is skipped. *)
Lemma score_set_no_dash (acc : Z * Z) (s : string) :
  length (split_on "-"%char (remove_chars weird_scoring s)) = 1%nat ->
  score_set acc s = Ok acc.
Proof.
  intros Hlen. unfold score_set. destruct acc as [w l].
  destruct (decide _) as [_|Hne]; [reflexivity | contradiction].
Qed.

Example score_skips_retirement : score_set (6, 4) "RET" = Ok (6, 4).
Proof. reflexivity. Qed.

Example match_games_three_sets : match_games (OStr "6-4 3-6 7-5") = Ok (16, 15).
Proof. reflexivity. Qed.

Example match_games_absent :
  match_games ONaN = Ok (0, 0) /\ match_games (OStr "unknown") = Ok (0, 0).
Proof. split; reflexivity. Qed.

(** C5, at the input on which the code departs from it: the score ["6-"]
    has a set whose loser side is empty.  [get_score] raises [IndexError]
    on it, the handler of the loop catches [ValueError] only, so the loop
    does not fall back to (0,0) games but stops with the exception. *)
Theorem score_with_empty_side_raises :
  get_score (OStr "6-") = Raise IndexError
  /\ match_games (OStr "6-") = Raise IndexError
  /\ Raw.score Fixture.truncated_match = OStr "6-"
  /\ process_loop Fixture.env Fixture.initial 0 [Fixture.truncated_match]
     = Raise IndexError.
Proof. repeat apply conj; vm_compute; reflexivity. Qed.

(** A malformed score whose sides do not start with a digit is caught:
    the loop takes (0,0) games for the whole score. *)
Lemma update_mutual_score_not_digit env ms raw_match :
  Raw.score raw_match = OStr "6-4 a-b" ->
  update_mutual_score env ms raw_match
  = (ms1 ← cell_add ms (Raw.winner_id raw_match) (Raw.loser_id raw_match)
             (games_weight env raw_match 0);
     cell_add ms1 (Raw.loser_id raw_match) (Raw.winner_id raw_match)
       (games_weight env raw_match 0)).
Proof. intros Hscore. unfold update_mutual_score. by rewrite Hscore. Qed.

(** ** The ranking lookup *)

Lemma get_loc_pad_from_bound (index : list date) (key : date) :
  forall pos best n,
    get_loc_pad_from pos best index key = Some n ->
    best = Some n \/ (pos <= n < pos + length index)%nat.
Proof.
  induction index as [|d index IH]; intros pos best n Hloc; simpl in *.
  - by left.
  - apply IH in Hloc as [Hbest | Hrange]; [| right; lia].
    destruct (date_leb d key); [| by left].
    injection Hbest as <-. right. lia.
Qed.

(** The as-of lookup finds a line of the history or raises [KeyError]. *)
Lemma ranking_asof_raises (rs : list ranking) (key : date) (e : exn) :
  ranking_asof rs key = Raise e -> e = KeyError.
Proof.
  unfold ranking_asof, get_loc_pad. intros Hraise.
  destruct (get_loc_pad_from 0 None (ranking_date <$> rs) key) as [n|] eqn:Hloc;
    simpl in Hraise; [| congruence].
  apply get_loc_pad_from_bound in Hloc as [? | Hrange]; [discriminate |].
  rewrite length_fmap in Hrange.
  destruct (lookup_lt_is_Some_2 rs n) as [r Hr]; [lia |].
  rewrite Hr in Hraise. discriminate.
Qed.

Lemma points_asof_try rankings id d :
  try_except
    (r ← ranking_asof (drop_duplicated (rankings_of rankings id)) d;
     Ok (points r))
    KeyError (Ok 0)
  = Ok (points_asof rankings id d).
Proof.
  unfold points_asof.
  destruct (ranking_asof _ d) as [r | e] eqn:Hasof; [reflexivity |].
  apply ranking_asof_raises in Hasof as ->. reflexivity.
Qed.

Lemma current_rank_try (rs : list ranking) (d : date) (sentinel : option Z) :
  exists current_rank,
    try_except (r ← ranking_asof rs d; Ok (Some (rank r), points r))
      KeyError (Ok (sentinel, 0))
    = Ok (current_rank,
          match ranking_asof rs d with Ok r => points r | Raise _ => 0 end).
Proof.
  destruct (ranking_asof rs d) as [r | e] eqn:Hasof; simpl; [eauto |].
  apply ranking_asof_raises in Hasof as ->. simpl. eauto.
Qed.

(** What [get_rankings] computes for the gradient: the loser's points of
    one year ago are read from the winner's history.  The lookup does not
    raise. *)
Lemma get_rankings_points_grad_diff rankings winner_id loser_id d :
  exists rank_diff,
    get_rankings rankings winner_id loser_id d
    = Ok (rank_diff,
          (points_asof rankings winner_id d
           - points_asof rankings winner_id (minus_years d 1))
          - (points_asof rankings loser_id d
             - points_asof rankings winner_id (minus_years d 1))).
Proof.
  unfold get_rankings.
  destruct (current_rank_try (drop_duplicated (rankings_of rankings winner_id))
              d ((fun m => m + 1) <$> np_max (rank <$> rankings)))
    as [winner_rank ->].
  destruct (current_rank_try (drop_duplicated (rankings_of rankings loser_id))
              d ((fun m => m + 1) <$> np_max (rank <$> rankings)))
    as [loser_rank ->].
  simpl. rewrite !points_asof_try. simpl. eauto.
Qed.

(** C3, at an input on which the code departs from it: with the rankings
    of the fixture, winner 1 and loser 2 on 2018-01-15, the gradients taken
    in each player's own history are 200 and 200, a difference of 0, while
    [get_rankings] returns -400 because it takes the loser's old points
    (500) from the winner's history (100). *)
Theorem points_grad_diff_uses_winner_history :
  get_rankings Fixture.rankings 1 2 (Date 2018 1 15) = Ok (Some (-3), -400)
  /\ points_grad_diff_by_own_history Fixture.rankings 1 2 (Date 2018 1 15) = 0
  /\ points_asof Fixture.rankings 2 (Date 2017 1 15) = 500
  /\ points_asof Fixture.rankings 1 (Date 2017 1 15) = 100.
Proof. repeat apply conj; vm_compute; reflexivity. Qed.

(** ** Win ratios *)

Lemma win_ratio_unplayed (wins losses : Z) :
  wins + losses = 0 -> win_ratio wins losses = 0%Q.
Proof.
  intros Hzero. unfold win_ratio.
  destruct (decide _) as [_|Hne]; [reflexivity | contradiction].
Qed.

Lemma win_ratio_range (wins losses : Z) :
  0 <= wins -> 0 <= losses -> (0 <= win_ratio wins losses <= 1)%Q.
Proof.
  intros Hw Hl. unfold win_ratio.
  destruct (decide _) as [_|Hne]; [split; discriminate |].
  assert (Hpos : (0 < inject_Z (wins + losses))%Q).
  { change 0%Q with (inject_Z 0). rewrite <- Zlt_Qlt. lia. }
  split.
  - apply Qle_shift_div_l; [exact Hpos |].
    rewrite Qmult_0_l. change 0%Q with (inject_Z 0). by rewrite <- Zle_Qle.
  - apply Qle_shift_div_r; [exact Hpos |].
    rewrite Qmult_1_l. rewrite <- Zle_Qle. lia.
Qed.

Lemma get_relative_total_wins_Ok cs winner_id loser_id ww lw wl ll :
  cell cs "total_wins" winner_id = Ok ww ->
  cell cs "total_losses" winner_id = Ok lw ->
  cell cs "total_wins" loser_id = Ok wl ->
  cell cs "total_losses" loser_id = Ok ll ->
  get_relative_total_wins cs winner_id loser_id
  = Ok (win_ratio ww lw - win_ratio wl ll)%Q.
Proof.
  intros H1 H2 H3 H4. unfold get_relative_total_wins.
  rewrite H1, H2, H3, H4. reflexivity.
Qed.

Lemma get_relative_surface_wins_Ok cs winner_id loser_id surface ww lw wl ll :
  cell cs ("surface_" ++ surface ++ "_wins") winner_id = Ok ww ->
  cell cs ("surface_" ++ surface ++ "_losses") winner_id = Ok lw ->
  cell cs ("surface_" ++ surface ++ "_wins") loser_id = Ok wl ->
  cell cs ("surface_" ++ surface ++ "_losses") loser_id = Ok ll ->
  get_relative_surface_wins cs winner_id loser_id surface
  = Ok (win_ratio ww lw - win_ratio wl ll)%Q.
Proof.
  intros H1 H2 H3 H4. unfold get_relative_surface_wins.
  rewrite H1, H2, H3, H4. reflexivity.
Qed.

Lemma ratio_difference_range (a b : Q) :
  (0 <= a <= 1)%Q -> (0 <= b <= 1)%Q -> (-1 <= a - b <= 1)%Q.
Proof. intros [? ?] [? ?]. split; lra. Qed.

(** C6, the claim as it stands fails: in the fixture player 2 has no
    recorded match, player 1 has won 3 of 4, and the relative total wins
    of 2 against 1 are -3/4, not 0. *)
Lemma relative_wins_of_unplayed_not_zero :
  cell Fixture.cond_stats "total_wins" 2 = Ok 0
  /\ cell Fixture.cond_stats "total_losses" 2 = Ok 0
  /\ get_relative_total_wins Fixture.cond_stats 2 1 = Ok (- 3 # 4)%Q
  /\ ~ (- 3 # 4 == 0)%Q.
Proof. repeat split; try reflexivity. discriminate. Qed.

(** C6, amended: a player [p] whose wins and losses sum to zero
    contributes a ratio of 0, so that the relative wins of [p] against an
    opponent [o] are minus the opponent's win ratio (and the opponent's win
    ratio the other way round), which is 0 when the opponent's counters sum
    to zero too; this holds overall and on a surface.  When the
    opponent's counters are not negative the result lies in [-1,1]. *)
Theorem relative_wins_of_unplayed cs surface p o :
  (forall wp lp wo lo,
     cell cs "total_wins" p = Ok wp ->
     cell cs "total_losses" p = Ok lp ->
     cell cs "total_wins" o = Ok wo ->
     cell cs "total_losses" o = Ok lo ->
     wp + lp = 0 ->
     get_relative_total_wins cs p o = Ok (0 - win_ratio wo lo)%Q
     /\ get_relative_total_wins cs o p = Ok (win_ratio wo lo - 0)%Q
     /\ (wo + lo = 0 ->
         get_relative_total_wins cs p o = Ok (0 - 0)%Q
         /\ get_relative_total_wins cs o p = Ok (0 - 0)%Q)
     /\ (0 <= wo -> 0 <= lo ->
         (-1 <= 0 - win_ratio wo lo <= 1)%Q
         /\ (-1 <= win_ratio wo lo - 0 <= 1)%Q))
  /\ (forall sp tp so to,
        cell cs ("surface_" ++ surface ++ "_wins") p = Ok sp ->
        cell cs ("surface_" ++ surface ++ "_losses") p = Ok tp ->
        cell cs ("surface_" ++ surface ++ "_wins") o = Ok so ->
        cell cs ("surface_" ++ surface ++ "_losses") o = Ok to ->
        sp + tp = 0 ->
        get_relative_surface_wins cs p o surface = Ok (0 - win_ratio so to)%Q
        /\ get_relative_surface_wins cs o p surface
           = Ok (win_ratio so to - 0)%Q
        /\ (so + to = 0 ->
            get_relative_surface_wins cs p o surface = Ok (0 - 0)%Q
            /\ get_relative_surface_wins cs o p surface = Ok (0 - 0)%Q)
        /\ (0 <= so -> 0 <= to ->
            (-1 <= 0 - win_ratio so to <= 1)%Q
            /\ (-1 <= win_ratio so to - 0 <= 1)%Q)).
Proof.
  split.
  - intros wp lp wo lo Hwp Hlp Hwo Hlo Hp.
    assert (Hpo := get_relative_total_wins_Ok cs p o _ _ _ _ Hwp Hlp Hwo Hlo).
    assert (Hop := get_relative_total_wins_Ok cs o p _ _ _ _ Hwo Hlo Hwp Hlp).
    rewrite (win_ratio_unplayed wp lp Hp) in Hpo, Hop.
    split; [exact Hpo |]. split; [exact Hop |]. split.
    + intros Ho. rewrite (win_ratio_unplayed wo lo Ho) in *. auto.
    + intros Hw Hl. pose proof (win_ratio_range wo lo Hw Hl).
      split; apply ratio_difference_range; auto; split; discriminate.
  - intros sp tp so to Hsp Htp Hso Hto Hp.
    assert (Hpo :=
      get_relative_surface_wins_Ok cs p o surface _ _ _ _ Hsp Htp Hso Hto).
    assert (Hop :=
      get_relative_surface_wins_Ok cs o p surface _ _ _ _ Hso Hto Hsp Htp).
    rewrite (win_ratio_unplayed sp tp Hp) in Hpo, Hop.
    split; [exact Hpo |]. split; [exact Hop |]. split.
    + intros Ho. rewrite (win_ratio_unplayed so to Ho) in *. auto.
    + intros Hw Hl. pose proof (win_ratio_range so to Hw Hl).
      split; apply ratio_difference_range; auto; split; discriminate.
Qed.



Lemma relative_wins_of_unplayed_witness :
  get_relative_total_wins Fixture.cond_stats 2 1 = Ok (0 - win_ratio 3 1)%Q
  /\ get_relative_surface_wins Fixture.cond_stats 2 1 "hard"
     = Ok (0 - win_ratio 2 1)%Q.
Proof.
  destruct (relative_wins_of_unplayed Fixture.cond_stats "hard" 2 1)
    as [Htotal Hsurface].
  split.
  - apply (Htotal 0 0 3 1); reflexivity.
  - apply (Hsurface 0 0 2 1); reflexivity.
Defined.

(** ** Unknown surface and climate *)


Example missing_surface_is_unknown :
  get_surface ONaN = "hard" /\ get_surface ONone = "hard"
  /\ get_surface (OStr "NaN") = "hard" /\ get_surface (OStr "Clay") = "clay".
Proof. repeat split; reflexivity. Qed.




(** ** The update of the stores *)



Lemma append_nil_l (s : string) : "" ++ s = s.
Proof. reflexivity. Qed.

Lemma append_cons_l (c : ascii) (s t : string) :
  String c s ++ t = String c (s ++ t).
Proof. reflexivity. Qed.




(** ** The update succeeds when every entry it touches can be read *)

Lemma cell_add_readable {K} `{Countable K} (df : gmap K (gmap Z Z)) col row v :
  readable df col row ->
  exists df', cell_add df col row v = Ok df'
              /\ forall c r, readable df c r -> readable df' c r.
Proof.
  intros [x Hx]. destruct (cell_add_defined df col row v x Hx) as [df' Hadd].
  exists df'. split; [exact Hadd |]. intros c r [y Hy].
  destruct (decide ((c, r) = (col, row))) as [Heq | Hne].
  - injection Heq as -> ->. exists (y + v). by apply (cell_add_same df).
  - exists y. by rewrite (cell_add_other _ _ _ _ _ _ _ Hadd Hne).
Qed.

Lemma update_cond_stats_defined env cs raw_match level_weight :
  t_weights env !! Raw.tourney_level raw_match = Some level_weight ->
  Forall (fun entry => readable cs entry.1 entry.2)
    (updated_counters env raw_match) ->
  exists cs', update_cond_stats env cs raw_match = Ok cs'.
Proof.
  intros Hlevel Hall. unfold update_cond_stats, match_dt_weight.
  rewrite Hlevel. simpl. unfold updated_counters in Hall.
  repeat (apply Forall_cons in Hall as [? Hall]). simpl in *.
  destruct (cell_add_readable cs "total_wins" (Raw.winner_id raw_match)
              (py_round (inject_Z (base_weight env)
                         * get_time_weight env (Raw.tourney_date raw_match)
                         * level_weight)))
    as (c1 & -> & Hkeep1); [assumption | simpl].
  destruct (cell_add_readable c1
              ("surface_" ++ get_surface (Raw.surface raw_match) ++ "_wins")
              (Raw.winner_id raw_match) (match_d_weight env raw_match))
    as (c2 & -> & Hkeep2); [auto | simpl].
  destruct (cell_add_readable c2
              ("climate_" ++ match_climate env raw_match ++ "_wins")
              (Raw.winner_id raw_match) (match_d_weight env raw_match))
    as (c3 & -> & Hkeep3); [auto | simpl].
  destruct (cell_add_readable c3 "total_losses" (Raw.loser_id raw_match)
              (py_round (inject_Z (base_weight env)
                         * get_time_weight env (Raw.tourney_date raw_match)
                         * level_weight)))
    as (c4 & -> & Hkeep4); [auto | simpl].
  destruct (cell_add_readable c4
              ("surface_" ++ get_surface (Raw.surface raw_match) ++ "_losses")
              (Raw.loser_id raw_match) (match_d_weight env raw_match))
    as (c5 & -> & Hkeep5); [auto | simpl].
  destruct (cell_add_readable c5
              ("climate_" ++ match_climate env raw_match ++ "_losses")
              (Raw.loser_id raw_match) (match_d_weight env raw_match))
    as (c6 & -> & _); [auto 10 | eauto].
Qed.

(** The update for a match succeeds when the tournament level has a
    weight, the score gives games, and the entries the update adds to can
    all be read. *)
Lemma update_stores_defined env st raw_match level_weight winner_games
    loser_games :
  let w := Raw.winner_id raw_match in
  let l := Raw.loser_id raw_match in
  t_weights env !! Raw.tourney_level raw_match = Some level_weight ->
  Forall (fun entry => readable (cond_stats st) entry.1 entry.2)
    (updated_counters env raw_match) ->
  readable (mutual_matches st) w l ->
  readable (surface_table st (get_surface (Raw.surface raw_match))) w l ->
  match_games (Raw.score raw_match) = Ok (winner_games, loser_games) ->
  readable (mutual_score st) w l ->
  readable (mutual_score st) l w ->
  exists st', update_stores env st raw_match = Ok st'.
Proof.
  intros w l Hlevel Hcounters Hmm Hsurface Hgames Hwl Hlw. subst w l.
  unfold update_stores.
  destruct (update_cond_stats_defined env _ _ _ Hlevel Hcounters) as [cs' ->].
  rewrite bind_of_Ok.
  destruct (cell_add_readable _ _ _ (match_d_weight env raw_match) Hmm)
    as (mm' & -> & _).
  rewrite bind_of_Ok.
  destruct (cell_add_readable _ _ _ (match_d_weight env raw_match) Hsurface)
    as (table' & Htable & _).
  assert (exists tables,
            update_surface_tables env (mutual_matches_clay st)
              (mutual_matches_grass st) (mutual_matches_hard st) raw_match
            = Ok tables) as [[[mm_clay mm_grass] mm_hard] ->].
  { unfold update_surface_tables, surface_table in *.
    destruct (decide (_ = "clay")); [| destruct (decide (_ = "grass"))];
      rewrite Htable, bind_of_Ok; eauto. }
  rewrite bind_of_Ok. unfold update_mutual_score.
  rewrite Hgames, bind_of_Ok.
  destruct (cell_add_readable _ _ _ (games_weight env raw_match winner_games)
              Hwl) as (ms1 & -> & Hkeep).
  rewrite bind_of_Ok.
  destruct (cell_add_readable ms1 _ _ (games_weight env raw_match loser_games)
              (Hkeep _ _ Hlw)) as (ms2 & -> & _).
  rewrite bind_of_Ok. eauto.
Qed.






(** ** Column labels *)







(** ** What the update leaves alone *)


Example update_changes_the_six_counters :
  cell (cond_stats Fixture.initial) "total_wins" 1 = Ok 3
  /\ cell (cond_stats Fixture.after_first) "total_wins" 1 = Ok 7
  /\ cell (cond_stats Fixture.initial) "surface_clay_losses" 2 = Ok 0
  /\ cell (cond_stats Fixture.after_first) "surface_clay_losses" 2 = Ok 4.
Proof. repeat apply conj; vm_compute; reflexivity. Qed.

(** ** Dates *)








(** ** The window of recent matches *)









Lemma process_loop_cons env st i raw_match rest rows st' :
  process_loop env st i (raw_match :: rest) = Ok (rows, st') ->
  exists row st1 rows',
    loop_body env st i raw_match = Ok (row, st1)
    /\ process_loop env st1 (S i) rest = Ok (rows', st')
    /\ rows = row :: rows'.
Proof.
  simpl. intros Hloop.
  bind_inv Hloop as [row st1] Hbody. bind_inv Hloop as [rows' st2] Hrest.
  injection Hloop as <- <-. eauto 10.
Qed.





(** In the fixture the window holds one match of last year at the first
    match, in January; at the second match, in May, that match and the
    first one are gone. *)
Example window_is_pruned :
  length (recent_matches Fixture.initial) = 1%nat
  /\ length (recent_matches (snd Fixture.first_turn)) = 2%nat
  /\ recent_matches (advance_window (snd Fixture.first_turn) (Date 2018 5 14))
     = [].
Proof. repeat apply conj; vm_compute; reflexivity. Qed.

(** ** Balancing *)



Lemma bind_Raise {A B} (m : result A) (f : A -> result B) (e : exn) :
  m ≫= f = Raise e -> m = Raise e \/ exists a, m = Ok a /\ f a = Raise e.
Proof.
  destruct m as [a|e']; intros Hraise.
  - right. exists a. split; [reflexivity | exact Hraise].
  - left. cbv [mbind result_bind] in Hraise. by injection Hraise as ->.
Qed.






















(** ** Reads before updates *)

Lemma process_loop_app env (xs : list Raw.t) :
  forall st i (ys : list Raw.t) rows st',
    process_loop env st i (xs ++ ys)%list = Ok (rows, st') ->
    exists rows1 st1 rows2,
      process_loop env st i xs = Ok (rows1, st1)
      /\ process_loop env st1 (i + length xs) ys = Ok (rows2, st')
      /\ rows = (rows1 ++ rows2)%list
      /\ length rows1 = length xs.
Proof.
  induction xs as [|x xs IH]; intros st i ys rows st' Hloop.
  - exists [], st, rows. rewrite Nat.add_0_r. auto.
  - change ((x :: xs) ++ ys)%list with (x :: (xs ++ ys))%list in Hloop.
    apply process_loop_cons in Hloop as (row & st1 & rows' & Hbody & Hrest & ->).
    apply IH in Hrest as (rows1 & st2 & rows2 & Hxs & Hys & -> & Hlen).
    exists (row :: rows1), st2, rows2. simpl. rewrite Hbody. simpl.
    rewrite Hxs. simpl. replace (i + S (length xs))%nat with (S i + length xs)%nat
      by lia.
    split; [reflexivity |]. split; [exact Hys |]. split; [reflexivity | lia].
Qed.














(** The line written for a match does not depend on what follows it in
    the stream. *)
Lemma line_independent_of_later_matches env st0 (pre post post' : list Raw.t)
    raw_match rows st_end rows' st_end' :
  process_loop env st0 0 (pre ++ raw_match :: post)%list = Ok (rows, st_end) ->
  process_loop env st0 0 (pre ++ raw_match :: post')%list = Ok (rows', st_end') ->
  rows !! length pre = rows' !! length pre.
Proof.
  intros (rows1 & s1 & rowsR & Hpre & Hrest & -> & Hlen)%process_loop_app.
  intros (rows1' & s1' & rowsR' & Hpre' & Hrest' & -> & Hlen')%process_loop_app.
  rewrite Hpre in Hpre'. injection Hpre' as <- <-.
  apply process_loop_cons in Hrest as (row & ? & ? & Hbody & _ & ->).
  apply process_loop_cons in Hrest' as (row' & ? & ? & Hbody' & _ & ->).
  rewrite Hbody in Hbody'. injection Hbody' as <- <-.
  by rewrite !list_lookup_middle.
Qed.


(** In the fixture player 1 beats player 2 in the first match and loses
    to player 2 in the second: the first line is computed from the win
    ratios 3/4 and 0 of the start, the second from 0 and 7/8, player 1
    having 7 wins and 1 loss once the first match is counted. *)
Example second_match_sees_first_outcome :
  (Match.rel_total_wins <$> fst Fixture.run) !! 0%nat = Some (VInt (-8))
  /\ (Match.rel_total_wins <$> fst Fixture.run) !! 1%nat = Some (VInt (-9))
  /\ get_relative_total_wins (cond_stats Fixture.initial) 1 2 = Ok (3 # 4)%Q
  /\ get_relative_total_wins (cond_stats (snd Fixture.first_turn)) 2 1
     = Ok (- 28 # 32)%Q.
Proof. repeat apply conj; vm_compute; reflexivity. Qed.

(** ** What a turn of the loop leaves alone *)




(** ** More on get_surface and get_score *)

Lemma lower_ascii_idem (c : ascii) : lower_ascii (lower_ascii c) = lower_ascii c.
Proof. destruct c as [[] [] [] [] [] [] [] []]; reflexivity. Qed.

Lemma lower_idem (s : string) : lower (lower s) = lower s.
Proof.
  induction s as [|c s IH]; simpl; [done|].
  by rewrite lower_ascii_idem, IH.
Qed.

(** X1: [get_surface] never returns "nan" or "none", what it returns is in
    lower case, and applying it to its own result changes nothing. *)
Theorem get_surface_normal_form (x : pyobj) :
  get_surface x ≠ "nan" /\ get_surface x ≠ "none"
  /\ lower (get_surface x) = get_surface x
  /\ get_surface (OStr (get_surface x)) = get_surface x.
Proof.
  unfold get_surface. cbv zeta. simpl py_str.
  set (s := lower (py_str x)).
  destruct (decide (s = "nan")) as [Hnan|Hnan].
  { repeat split; done. }
  destruct (decide (s = "none")) as [Hnone|Hnone].
  { repeat split; done. }
  assert (lower s = s) as Hs by apply lower_idem.
  rewrite Hs.
  repeat split; try done.
  destruct (decide (s = "nan")); [done|].
  destruct (decide (s = "none")); done.
Qed.

Lemma split_whitespace_from_sep (cur a : string) (c : ascii) (b : string) :
  is_whitespace c = true ->
  split_whitespace_from cur (a ++ String c b)
  = (split_whitespace_from cur a ++ split_whitespace_from "" b)%list.
Proof.
  intros Hc. revert cur. induction a as [|x a IH]; intros cur.
  - rewrite append_nil_l. simpl. rewrite Hc.
    destruct (decide (cur = "")); done.
  - rewrite append_cons_l. simpl. destruct (is_whitespace x).
    + destruct (decide (cur = "")); rewrite IH; done.
    + apply IH.
Qed.

Lemma score_set_shift (a b : Z) (s : string) :
  score_set (a, b) s
  = ('(w, l) ← score_set (0, 0) s; Ok (a + w, b + l)).
Proof.
  unfold score_set.
  destruct (decide (length (split_on "-"%char (remove_chars weird_scoring s)) = 1%nat)).
  { simpl. by rewrite !Z.add_0_r. }
  destruct (split_on "-"%char (remove_chars weird_scoring s) !! 0%nat) as [g0|];
    [|done].
  simpl. destruct (first_char g0) as [c0|]; [|done].
  simpl. destruct (int_of_char c0) as [w|]; [|done].
  simpl.
  destruct (split_on "-"%char (remove_chars weird_scoring s) !! 1%nat) as [g1|];
    [|done].
  simpl. destruct (first_char g1) as [c1|]; [|done].
  simpl. destruct (int_of_char c1) as [l|]; [|done].
  done.
Qed.

Lemma score_sets_shift (sets : list string) :
  forall a b,
    score_sets (a, b) sets
    = ('(w, l) ← score_sets (0, 0) sets; Ok (a + w, b + l)).
Proof.
  induction sets as [|s sets IH]; intros a b.
  { simpl. by rewrite !Z.add_0_r. }
  cbn [score_sets]. rewrite (score_set_shift a b).
  destruct (score_set (0, 0) s) as [[w l]|e]; [|done].
  rewrite !bind_of_Ok. rewrite (IH (a + w) (b + l)), (IH w l).
  destruct (score_sets (0, 0) sets) as [[w' l']|e]; [|done].
  simpl. by rewrite !Z.add_assoc.
Qed.

Lemma score_sets_app (xs ys : list string) :
  forall acc,
    score_sets acc (xs ++ ys)%list
    = (acc' ← score_sets acc xs; score_sets acc' ys).
Proof.
  induction xs as [|s xs IH]; intros acc; [done|].
  cbn [score_sets app]. destruct (score_set acc s) as [acc'|e]; [|done].
  rewrite !bind_of_Ok. apply IH.
Qed.

Lemma get_score_sets (x : pyobj) :
  get_score x = score_sets (0, 0) (split_whitespace (py_str x)).
Proof.
  unfold get_score. cbv zeta.
  destruct (decide (py_str x = "nan")) as [Hnan|]; [|done].
  rewrite Hnan. reflexivity.
Qed.

(** X2: the games of two score texts joined by a space are the games of
    the first plus the games of the second; when the first raises, or else
    the second, the joined text raises the same exception. *)
Theorem get_score_of_joined_scores (a b : string) :
  get_score (OStr (a ++ " " ++ b))
  = ('(w1, l1) ← get_score (OStr a);
     '(w2, l2) ← get_score (OStr b);
     Ok (w1 + w2, l1 + l2)).
Proof.
  rewrite !get_score_sets. simpl py_str. unfold split_whitespace.
  rewrite append_cons_l, append_nil_l.
  rewrite split_whitespace_from_sep by reflexivity.
  rewrite score_sets_app.
  destruct (score_sets (0, 0) (split_whitespace_from "" a)) as [[w1 l1]|e];
    [|done].
  simpl. rewrite (score_sets_shift _ w1 l1).
  destruct (score_sets (0, 0) (split_whitespace_from "" b)) as [[w2 l2]|e];
    done.
Qed.

Lemma int_of_char_range (c : ascii) (d : Z) :
  int_of_char c = Ok d -> 0 <= d <= 9.
Proof.
  unfold int_of_char. cbv zeta.
  destruct ((48 <=? N_of_ascii c)%N && (N_of_ascii c <=? 57)%N) eqn:Hdigit;
    [|discriminate].
  intros [= <-].
  apply andb_true_iff in Hdigit as [Hlow Hhigh].
  apply N.leb_le in Hlow, Hhigh. lia.
Qed.

Lemma score_set_range (a b a' b' : Z) (s : string) :
  score_set (a, b) s = Ok (a', b') ->
  a <= a' <= a + 9 /\ b <= b' <= b + 9.
Proof.
  unfold score_set.
  destruct (decide (length (split_on "-"%char (remove_chars weird_scoring s)) = 1%nat)).
  { intros [= <- <-]. lia. }
  intros H.
  bind_inv H as g0 Hg0. bind_inv H as c0 Hc0. bind_inv H as w Hw.
  bind_inv H as g1 Hg1. bind_inv H as c1 Hc1. bind_inv H as l Hl.
  injection H as <- <-.
  apply int_of_char_range in Hw, Hl. lia.
Qed.

Lemma score_sets_range (sets : list string) :
  forall a b a' b',
    score_sets (a, b) sets = Ok (a', b') ->
    a <= a' <= a + 9 * Z.of_nat (length sets)
    /\ b <= b' <= b + 9 * Z.of_nat (length sets).
Proof.
  induction sets as [|s sets IH]; intros a b a' b' H.
  { injection H as <- <-. simpl. lia. }
  cbn [score_sets] in H. bind_inv H as [a1 b1] H1.
  apply score_set_range in H1. apply IH in H.
  rewrite length_cons. lia.
Qed.

(** X3: when [get_score] returns, each of the two totals lies between 0
    and 9 times the number of sets (the fields [str.split] gives): one
    character is read for each side of a set, so the set 10-8 counts 1 game
    and 8 games. *)
Theorem get_score_range (score : pyobj) (winner_games loser_games : Z) :
  get_score score = Ok (winner_games, loser_games) ->
  let sets := split_whitespace (py_str score) in
  0 <= winner_games <= 9 * Z.of_nat (length sets)
  /\ 0 <= loser_games <= 9 * Z.of_nat (length sets).
Proof.
  rewrite get_score_sets. intros H sets.
  apply score_sets_range in H. subst sets. lia.
Qed.

Lemma get_score_range_witness :
  get_score (OStr "6-4 10-8") = Ok (7, 12)
  /\ 0 <= 7 <= 9 * 2 /\ 0 <= 12 <= 9 * 2.
Proof.
  split; [reflexivity|].
  exact (get_score_range (OStr "6-4 10-8") 7 12 eq_refl).
Defined.

Lemma from_option_Raise {A} (e e' : exn) (o : option A) :
  from_option e o = Raise e' -> e' = e.
Proof. destruct o; [discriminate|]. by intros [= ->]. Qed.

Lemma first_char_Raise (s : string) (e : exn) :
  first_char s = Raise e -> e = IndexError.
Proof. destruct s; [|discriminate]. by intros [= <-]. Qed.

Lemma int_of_char_Raise (c : ascii) (e : exn) :
  int_of_char c = Raise e -> e = ValueError.
Proof.
  unfold int_of_char. cbv zeta.
  destruct ((48 <=? N_of_ascii c)%N && (N_of_ascii c <=? 57)%N);
    [discriminate|]. by intros [= <-].
Qed.

Lemma score_set_raises (acc : Z * Z) (s : string) (e : exn) :
  score_set acc s = Raise e -> e = ValueError \/ e = IndexError.
Proof.
  destruct acc as [a b]. unfold score_set.
  destruct (decide (length (split_on "-"%char (remove_chars weird_scoring s)) = 1%nat));
    [discriminate|].
  intros H.
  apply bind_Raise in H as [H|(g0 & _ & H)];
    [apply from_option_Raise in H; by right|].
  apply bind_Raise in H as [H|(c0 & _ & H)];
    [apply first_char_Raise in H; by right|].
  apply bind_Raise in H as [H|(w & _ & H)];
    [apply int_of_char_Raise in H; by left|].
  apply bind_Raise in H as [H|(g1 & _ & H)];
    [apply from_option_Raise in H; by right|].
  apply bind_Raise in H as [H|(c1 & _ & H)];
    [apply first_char_Raise in H; by right|].
  apply bind_Raise in H as [H|(l & _ & H)];
    [apply int_of_char_Raise in H; by left|].
  discriminate H.
Qed.

Lemma score_sets_raises (sets : list string) :
  forall acc e,
    score_sets acc sets = Raise e -> e = ValueError \/ e = IndexError.
Proof.
  induction sets as [|s sets IH]; intros acc e H; [discriminate|].
  cbn [score_sets] in H. apply bind_Raise in H as [H|(acc' & _ & H)].
  - by apply score_set_raises in H.
  - by apply IH in H.
Qed.

(** X4: [get_score] returns, raises [ValueError] or raises [IndexError],
    and nothing else; the [try/except] of lines 183-187 of
    [process_matches] returns what [get_score] returns, turns [ValueError]
    into (0, 0) and lets [IndexError] through. *)
Theorem match_games_outcomes (score : pyobj) :
  (get_score score = Raise IndexError /\ match_games score = Raise IndexError)
  \/ (get_score score = Raise ValueError /\ match_games score = Ok (0, 0))
  \/ (exists winner_games loser_games,
        get_score score = Ok (winner_games, loser_games)
        /\ match_games score = Ok (winner_games, loser_games)).
Proof.
  unfold match_games.
  destruct (get_score score) as [[w l]|e] eqn:Hscore.
  - right. right. by exists w, l.
  - rewrite get_score_sets in Hscore.
    apply score_sets_raises in Hscore as [-> | ->].
    + right. by left.
    + by left.
Qed.

(** ** More on the win ratios and the rankings *)

Lemma cell_Raise {K} `{Countable K} (df : gmap K (gmap Z Z)) col row e :
  cell df col row = Raise e -> e = KeyError.
Proof.
  unfold cell. intros Hcell.
  apply bind_Raise in Hcell as [Hcell|(s & _ & Hcell)];
    by apply from_option_Raise in Hcell.
Qed.

Ltac cell_errors H1 H2 H3 H4 :=
  try apply cell_Raise in H1; try apply cell_Raise in H2;
  try apply cell_Raise in H3; try apply cell_Raise in H4; subst.

Lemma get_relative_total_wins_opposite cs a b :
  both_or_neither (fun x y => (x == - y)%Q)
    (get_relative_total_wins cs a b) (get_relative_total_wins cs b a).
Proof.
  unfold get_relative_total_wins.
  destruct (cell cs "total_wins" a) as [ww|e1] eqn:H1;
    destruct (cell cs "total_losses" a) as [lw|e2] eqn:H2;
    destruct (cell cs "total_wins" b) as [wl|e3] eqn:H3;
    destruct (cell cs "total_losses" b) as [ll|e4] eqn:H4;
    cell_errors H1 H2 H3 H4; simpl; try done.
  ring.
Qed.

Lemma get_relative_surface_wins_opposite cs surface a b :
  both_or_neither (fun x y => (x == - y)%Q)
    (get_relative_surface_wins cs a b surface)
    (get_relative_surface_wins cs b a surface).
Proof.
  unfold get_relative_surface_wins.
  destruct (cell cs ("surface_" ++ surface ++ "_wins") a) as [ww|e1] eqn:H1;
    destruct (cell cs ("surface_" ++ surface ++ "_losses") a) as [lw|e2] eqn:H2;
    destruct (cell cs ("surface_" ++ surface ++ "_wins") b) as [wl|e3] eqn:H3;
    destruct (cell cs ("surface_" ++ surface ++ "_losses") b) as [ll|e4] eqn:H4;
    cell_errors H1 H2 H3 H4; simpl; try done.
  ring.
Qed.

Lemma get_mutual_surface_wins_opposite mm_clay mm_grass mm_hard surface a b :
  both_or_neither (fun x y => x = - y)
    (get_mutual_surface_wins mm_clay mm_grass mm_hard surface a b)
    (get_mutual_surface_wins mm_clay mm_grass mm_hard surface b a).
Proof.
  unfold get_mutual_surface_wins.
  destruct (decide (surface = "clay")); [|destruct (decide (surface = "grass"))].
  - destruct (cell mm_clay a b) as [x|e1] eqn:H1;
      destruct (cell mm_clay b a) as [y|e2] eqn:H2;
      cell_errors H1 H2 H1 H2; simpl; try done. lia.
  - destruct (cell mm_grass a b) as [x|e1] eqn:H1;
      destruct (cell mm_grass b a) as [y|e2] eqn:H2;
      cell_errors H1 H2 H1 H2; simpl; try done. lia.
  - destruct (cell mm_hard a b) as [x|e1] eqn:H1;
      destruct (cell mm_hard b a) as [y|e2] eqn:H2;
      cell_errors H1 H2 H1 H2; simpl; try done. lia.
Qed.

(** X5: called with the two players in the other order,
    [get_relative_total_wins], [get_relative_surface_wins] and
    [get_mutual_surface_wins] return the opposite number; they raise
    [KeyError] for one order exactly when they do for the other. *)
Theorem helpers_are_antisymmetric cs mm_clay mm_grass mm_hard surface a b :
  both_or_neither (fun x y => (x == - y)%Q)
    (get_relative_total_wins cs a b) (get_relative_total_wins cs b a)
  /\ both_or_neither (fun x y => (x == - y)%Q)
       (get_relative_surface_wins cs a b surface)
       (get_relative_surface_wins cs b a surface)
  /\ both_or_neither (fun x y => x = - y)
       (get_mutual_surface_wins mm_clay mm_grass mm_hard surface a b)
       (get_mutual_surface_wins mm_clay mm_grass mm_hard surface b a).
Proof.
  split; [apply get_relative_total_wins_opposite|].
  split; [apply get_relative_surface_wins_opposite|].
  apply get_mutual_surface_wins_opposite.
Qed.

Lemma drop_duplicated_from_elem (rs : list ranking) :
  forall seen r,
    r ∈ drop_duplicated_from seen rs
    <-> exists pre post,
          rs = (pre ++ r :: post)%list
          /\ (ranking_date r ∉ seen)
          /\ ranking_date r ∉ (ranking_date <$> pre).
Proof.
  induction rs as [|x rs IH]; intros seen r.
  { simpl. split.
    - intros Hin. by apply elem_of_nil in Hin.
    - intros (pre & post & Hrs & _). by destruct pre. }
  simpl. destruct (decide (ranking_date x ∈ seen)) as [Hseen|Hseen].
  - rewrite IH. split.
    + intros (pre & post & -> & Hr & Hpre).
      exists (x :: pre), post. split; [done|]. split; [done|].
      rewrite fmap_cons, not_elem_of_cons. split; [|done].
      intros Heq. by rewrite Heq in Hr.
    + intros (pre & post & Hrs & Hr & Hpre).
      destruct pre as [|y pre].
      * simpl in Hrs. injection Hrs as -> ->. done.
      * simpl in Hrs. injection Hrs as -> ->.
        rewrite fmap_cons, not_elem_of_cons in Hpre.
        exists pre, post. by destruct Hpre.
  - rewrite elem_of_cons, IH. split.
    + intros [->|(pre & post & -> & Hr & Hpre)].
      * exists [], rs. split; [done|]. split; [done|].
        simpl. apply not_elem_of_nil.
      * rewrite not_elem_of_cons in Hr. destruct Hr as [Hx Hr].
        exists (x :: pre), post. split; [done|]. split; [done|].
        rewrite fmap_cons, not_elem_of_cons. done.
    + intros (pre & post & Hrs & Hr & Hpre).
      destruct pre as [|y pre].
      * simpl in Hrs. injection Hrs as -> ->. by left.
      * simpl in Hrs. injection Hrs as -> ->.
        rewrite fmap_cons, not_elem_of_cons in Hpre. destruct Hpre as [Hy Hpre].
        right. exists pre, post. split; [done|]. split; [|done].
        rewrite not_elem_of_cons. done.
Qed.

Lemma drop_duplicated_from_NoDup (rs : list ranking) :
  forall seen, NoDup (ranking_date <$> drop_duplicated_from seen rs).
Proof.
  induction rs as [|x rs IH]; intros seen; simpl; [constructor|].
  destruct (decide (ranking_date x ∈ seen)); [apply IH|].
  rewrite fmap_cons. constructor; [|apply IH].
  intros Hin. apply list_elem_of_fmap in Hin as (r & Hdate & Hin).
  apply drop_duplicated_from_elem in Hin as (_ & _ & _ & Hr & _).
  apply Hr. rewrite <- Hdate. by left.
Qed.

Lemma drop_duplicated_from_sublist (rs : list ranking) :
  forall seen, drop_duplicated_from seen rs `sublist_of` rs.
Proof.
  induction rs as [|x rs IH]; intros seen; simpl; [constructor|].
  destruct (decide (ranking_date x ∈ seen)).
  - apply sublist_cons, IH.
  - apply sublist_skip, IH.
Qed.

(** X6: dropping the duplicated dates of a ranking history leaves no date
    twice, keeps the lines in their order, and keeps exactly the lines
    before which no line of the history has the same date: the first line
    of every date. *)
Theorem drop_duplicated_keeps_first (rs : list ranking) :
  NoDup (ranking_date <$> drop_duplicated rs)
  /\ drop_duplicated rs `sublist_of` rs
  /\ (forall r,
        r ∈ drop_duplicated rs
        <-> exists pre post,
              rs = (pre ++ r :: post)%list
              /\ ranking_date r ∉ (ranking_date <$> pre)).
Proof.
  unfold drop_duplicated. split; [apply drop_duplicated_from_NoDup|].
  split; [apply drop_duplicated_from_sublist|].
  intros r. rewrite drop_duplicated_from_elem. split.
  - intros (pre & post & Hrs & _ & Hpre). by exists pre, post.
  - intros (pre & post & Hrs & Hpre). exists pre, post.
    split; [done|]. split; [apply not_elem_of_nil|done].
Qed.

Lemma get_loc_pad_from_none (rs : list ranking) (key : date) :
  forall pos best,
    Forall (after key) rs ->
    get_loc_pad_from pos best (ranking_date <$> rs) key = best.
Proof.
  induction rs as [|x rs IH]; intros pos best Hall; [done|].
  apply Forall_cons in Hall as [Hx Hall].
  rewrite fmap_cons. simpl. unfold after in Hx. rewrite Hx. by apply IH.
Qed.

Lemma get_loc_pad_from_last (pre : list ranking) (r : ranking)
    (post : list ranking) (key : date) :
  forall pos best,
    date_leb (ranking_date r) key = true ->
    Forall (after key) post ->
    get_loc_pad_from pos best (ranking_date <$> (pre ++ r :: post)%list) key
    = Some (pos + length pre)%nat.
Proof.
  induction pre as [|x pre IH]; intros pos best Hr Hpost.
  - simpl. rewrite Hr. rewrite get_loc_pad_from_none by done.
    f_equal. lia.
  - simpl. rewrite IH by done. f_equal. lia.
Qed.

Lemma last_not_after (rs : list ranking) (key : date) :
  Forall (after key) rs
  \/ exists pre r post,
       rs = (pre ++ r :: post)%list
       /\ date_leb (ranking_date r) key = true
       /\ Forall (after key) post.
Proof.
  induction rs as [|x rs IH]; [left; constructor|].
  destruct IH as [Hall|(pre & r & post & -> & Hr & Hpost)].
  - destruct (date_leb (ranking_date x) key) eqn:Hx.
    + right. by exists [], x, rs.
    + left. by constructor.
  - right. by exists (x :: pre), r, post.
Qed.

Lemma ranking_asof_last (pre : list ranking) (r : ranking) (post : list ranking)
    (key : date) :
  date_leb (ranking_date r) key = true ->
  Forall (after key) post ->
  ranking_asof (pre ++ r :: post)%list key = Ok r.
Proof.
  intros Hr Hpost. unfold ranking_asof, get_loc_pad.
  rewrite get_loc_pad_from_last by done. simpl.
  by rewrite list_lookup_middle.
Qed.

Lemma ranking_asof_none (rs : list ranking) (key : date) :
  Forall (after key) rs -> ranking_asof rs key = Raise KeyError.
Proof.
  intros Hall. unfold ranking_asof, get_loc_pad.
  by rewrite get_loc_pad_from_none.
Qed.

Lemma ranking_asof_elem (rs : list ranking) (key : date) (r : ranking) :
  ranking_asof rs key = Ok r -> r ∈ rs.
Proof.
  unfold ranking_asof. intros Hasof. bind_inv Hasof as loc Hloc.
  apply from_option_Ok in Hasof. by eapply list_elem_of_lookup_2.
Qed.

(** X7: the as-of lookup [rs.iloc[rs.index.get_loc(key, method='pad')]]
    returns the last line of the history that is not dated after [key]; it
    raises [KeyError] exactly when every line is dated after [key], and it
    raises nothing else. *)
Theorem ranking_asof_is_last_not_after (rs : list ranking) (key : date) :
  (forall r,
     ranking_asof rs key = Ok r
     <-> exists pre post,
           rs = (pre ++ r :: post)%list
           /\ date_leb (ranking_date r) key = true
           /\ Forall (fun r' => date_leb (ranking_date r') key = false) post)
  /\ (ranking_asof rs key = Raise KeyError
      <-> Forall (fun r' => date_leb (ranking_date r') key = false) rs)
  /\ (forall e, ranking_asof rs key = Raise e -> e = KeyError).
Proof.
  split; [|split].
  - intros r. split.
    + intros Hasof.
      destruct (last_not_after rs key)
        as [Hall|(pre & r0 & post & Hrs & Hr0 & Hpost)].
      * rewrite ranking_asof_none in Hasof by done. discriminate.
      * subst rs. rewrite ranking_asof_last in Hasof by done.
        injection Hasof as ->. by exists pre, post.
    + intros (pre & post & -> & Hr & Hpost). by apply ranking_asof_last.
  - split; [|apply ranking_asof_none].
    intros Hasof.
    destruct (last_not_after rs key)
      as [Hall|(pre & r0 & post & Hrs & Hr0 & Hpost)]; [done|].
    subst rs. rewrite ranking_asof_last in Hasof by done. discriminate.
  - apply ranking_asof_raises.
Qed.

Lemma rank_asof_try rankings id d :
  try_except
    (r ← ranking_asof (drop_duplicated (rankings_of rankings id)) d;
     Ok (Some (rank r), points r))
    KeyError
    (Ok ((fun m => m + 1) <$> np_max (rank <$> rankings), 0))
  = Ok (rank_asof rankings id d, points_asof rankings id d).
Proof.
  unfold rank_asof, points_asof.
  destruct (ranking_asof (drop_duplicated (rankings_of rankings id)) d)
    as [r|e] eqn:Hasof; [done|].
  apply ranking_asof_raises in Hasof as ->. done.
Qed.

Lemma get_rankings_Ok rankings winner_id loser_id d :
  get_rankings rankings winner_id loser_id d
  = Ok (a ← rank_asof rankings winner_id d;
        b ← rank_asof rankings loser_id d;
        Some (a - b),
        points_asof rankings winner_id d - points_asof rankings loser_id d).
Proof.
  unfold get_rankings. cbv zeta.
  rewrite !rank_asof_try, !bind_of_Ok.
  rewrite !points_asof_try, !bind_of_Ok.
  do 2 f_equal. lia.
Qed.

(** X8: [get_rankings] never raises.  Its rank difference is the
    difference of the two as-of ranks, where a player without a ranking
    counts as one more than the highest rank of the archive, and its points
    gradient difference is the difference of the two players' current
    points: the points of one year ago, read twice in the winner's history,
    cancel.  With the players in the other order both numbers change
    sign. *)
Theorem get_rankings_closed_form rankings winner_id loser_id d :
  let rank_diff :=
    a ← rank_asof rankings winner_id d;
    b ← rank_asof rankings loser_id d;
    Some (a - b) in
  let points_diff :=
    points_asof rankings winner_id d - points_asof rankings loser_id d in
  get_rankings rankings winner_id loser_id d = Ok (rank_diff, points_diff)
  /\ get_rankings rankings loser_id winner_id d
     = Ok (Z.opp <$> rank_diff, - points_diff).
Proof.
  cbv zeta. rewrite !get_rankings_Ok. split; [done|].
  do 2 f_equal; [|lia].
  destruct (rank_asof rankings winner_id d) as [a|],
           (rank_asof rankings loser_id d) as [b|]; simpl; try done.
  f_equal. lia.
Qed.

Lemma np_max_upper (xs : list Z) (x : Z) :
  x ∈ xs -> exists top, np_max xs = Some top /\ x <= top.
Proof.
  destruct xs as [|x0 xs]; [intros Hin; by apply elem_of_nil in Hin|].
  intros Hin. exists (foldr Z.max x0 xs). split; [done|].
  assert (x0 <= foldr Z.max x0 xs) as Hhead.
  { clear Hin. induction xs as [|y xs IH]; simpl; lia. }
  apply elem_of_cons in Hin as [->|Hin]; [done|].
  clear Hhead. induction xs as [|y xs IH]; [by apply elem_of_nil in Hin|].
  simpl. apply elem_of_cons in Hin as [->|Hin]; [lia|].
  specialize (IH Hin). lia.
Qed.

(** X9: against a player who has a ranking [r] on the date, a player
    whose history has no line up to the date counts as ranked one behind the
    highest rank of the archive, which is at least the rank of [r], and as
    having no points. *)
Theorem unranked_player_ranks_last rankings unranked ranked d r :
  Forall (fun x => date_leb (ranking_date x) d = false)
    (rankings_of rankings unranked) ->
  ranking_asof (drop_duplicated (rankings_of rankings ranked)) d = Ok r ->
  exists top,
    np_max (rank <$> rankings) = Some top
    /\ rank r <= top
    /\ get_rankings rankings unranked ranked d
       = Ok (Some (top + 1 - rank r), 0 - points r)
    /\ get_rankings rankings ranked unranked d
       = Ok (Some (rank r - (top + 1)), points r - 0).
Proof.
  intros Hnone Hasof.
  assert (r ∈ rankings) as Hin.
  { pose proof (ranking_asof_elem _ _ _ Hasof) as Hdd.
    assert (r ∈ rankings_of rankings ranked) as Hof.
    { eapply elem_of_sublist; [apply Hdd|].
      apply drop_duplicated_from_sublist. }
    unfold rankings_of in Hof. by apply list_elem_of_filter in Hof as [_ Hof]. }
  destruct (np_max_upper (rank <$> rankings) (rank r)) as (top & Htop & Hle).
  { apply list_elem_of_fmap. by exists r. }
  exists top. split; [done|]. split; [done|].
  assert (ranking_asof (drop_duplicated (rankings_of rankings unranked)) d
          = Raise KeyError) as Hunranked.
  { apply ranking_asof_none.
    apply Forall_forall. intros x Hx.
    eapply Forall_forall; [apply Hnone|].
    eapply elem_of_sublist; [apply Hx|].
    apply drop_duplicated_from_sublist. }
  rewrite !get_rankings_Ok. unfold rank_asof, points_asof.
  rewrite Hasof, Hunranked, Htop. done.
Qed.

Lemma unranked_player_ranks_last_witness :
  get_rankings Fixture.rankings 3 1 (Date 2018 1 15) = Ok (Some 16, -300)
  /\ get_rankings Fixture.rankings 1 3 (Date 2018 1 15) = Ok (Some (-16), 300).
Proof.
  destruct (unranked_player_ranks_last Fixture.rankings 3 1 (Date 2018 1 15)
              (Ranking (Date 2018 1 1) 5 1 300))
    as (top & Htop & _ & Hfirst & Hsecond).
  - vm_compute. constructor.
  - vm_compute. reflexivity.
  - injection Htop as <-. split; [exact Hfirst | exact Hsecond].
Defined.

(** ** load_matches, extract_player_ids and the days of get_time_weight *)

Lemma py_range_empty (a b : Z) : b <= a -> py_range a b = [].
Proof. intros Hle. unfold py_range. apply seqZ_nil. lia. Qed.

Lemma py_range_split (a b c : Z) :
  a <= b -> b <= c -> py_range a c = (py_range a b ++ py_range b c)%list.
Proof.
  intros Hab Hbc. unfold py_range.
  replace (c - a) with ((b - a) + (c - b)) by lia.
  rewrite seqZ_app by lia. do 2 f_equal. lia.
Qed.

Lemma load_matches_Ok read_csv years_from years_to player_ids :
  years_from <= years_to ->
  load_matches read_csv years_from years_to player_ids
  = Ok (keep_columns
          <$> wanted player_ids
                (mjoin (py_range years_from (years_to + 1)
                          ≫= year_frames read_csv))).
Proof.
  intros Hle. unfold load_matches, wanted. cbv zeta.
  unfold py_range at 1. rewrite seqZ_cons by lia. rewrite bind_cons.
  unfold year_frames at 1. cbn [app pd_concat]. rewrite bind_of_Ok.
  unfold py_range. rewrite (seqZ_cons years_from) by lia. rewrite bind_cons.
  done.
Qed.

Lemma load_matches_empty read_csv years_from years_to player_ids :
  years_to < years_from ->
  load_matches read_csv years_from years_to player_ids = Raise ValueError.
Proof.
  intros Hlt. unfold load_matches. cbv zeta.
  rewrite py_range_empty by lia. done.
Qed.

(** X10: [load_matches] raises [ValueError], from [pd.concat] of an empty
    list, when the range of years is empty ([years['to'] < years['from']]),
    and returns a frame otherwise.  The files are taken to exist:
    [read_csv] is total. *)
Theorem load_matches_needs_a_year read_csv years_from years_to player_ids :
  (years_to < years_from
   /\ load_matches read_csv years_from years_to player_ids = Raise ValueError)
  \/ (years_from <= years_to
      /\ exists matches,
           load_matches read_csv years_from years_to player_ids = Ok matches).
Proof.
  destruct (decide (years_to < years_from)) as [Hlt|Hle].
  - left. split; [done|]. by apply load_matches_empty.
  - right. split; [lia|]. rewrite load_matches_Ok by lia. by eexists.
Qed.

(** X11: loading a range of years gives the matches of its first years
    followed by the matches of the remaining years, with or without a list
    of players. *)
Theorem load_matches_splits_by_year read_csv years_from mid years_to player_ids :
  years_from <= mid -> mid < years_to ->
  load_matches read_csv years_from years_to player_ids
  = (earlier ← load_matches read_csv years_from mid player_ids;
     later ← load_matches read_csv (mid + 1) years_to player_ids;
     Ok (earlier ++ later)%list).
Proof.
  intros Hfrom Hto. rewrite !load_matches_Ok by lia. rewrite !bind_of_Ok.
  rewrite (py_range_split years_from (mid + 1) (years_to + 1)) by lia.
  rewrite bind_app, join_app. f_equal.
  destruct player_ids as [ids|]; simpl.
  - by rewrite filter_app, fmap_app.
  - by rewrite fmap_app.
Qed.

Lemma load_matches_splits_by_year_witness :
  load_matches Sample.read_csv 2017 2018 (Some [4])
  = (earlier ← load_matches Sample.read_csv 2017 2017 (Some [4]);
     later ← load_matches Sample.read_csv 2018 2018 (Some [4]);
     Ok (earlier ++ later)%list).
Proof.
  apply (load_matches_splits_by_year Sample.read_csv 2017 2017 2018 (Some [4]));
    lia.
Defined.

Lemma remove_dups_sorted (xs : list Z) :
  StronglySorted Z.le xs -> StronglySorted Z.lt (remove_dups xs).
Proof.
  induction 1 as [|x xs Hsorted IH Hall]; simpl; [constructor|].
  destruct (decide_rel elem_of x xs) as [Hin|Hin]; [done|].
  constructor; [done|].
  apply Forall_forall. intros y Hy. rewrite elem_of_remove_dups in Hy.
  pose proof (proj1 (Forall_forall _ _) Hall y Hy) as Hle.
  assert (x ≠ y) by (intros ->; done). lia.
Qed.

Lemma np_unique_sorted (xs : list Z) : StronglySorted Z.lt (np_unique xs).
Proof.
  unfold np_unique. apply remove_dups_sorted.
  apply (StronglySorted_merge_sort Z.le).
Qed.

Lemma elem_of_np_unique (xs : list Z) (x : Z) : x ∈ np_unique xs <-> x ∈ xs.
Proof.
  unfold np_unique. rewrite elem_of_remove_dups.
  by rewrite (merge_sort_Permutation Z.le xs).
Qed.

(** X12: when the matches of the range can be loaded,
    [extract_player_ids] returns the ids in strictly ascending order, and
    an id is returned exactly when it is the winner or the loser of a
    loaded match. *)
Theorem extract_player_ids_sorted_and_exact read_csv years_from years_to matches :
  load_matches read_csv years_from years_to None = Ok matches ->
  exists players,
    extract_player_ids read_csv years_from years_to = Ok players
    /\ StronglySorted Z.lt players
    /\ (forall p,
          p ∈ players
          <-> exists m, m ∈ matches
                        /\ (Loaded.winner_id m = p \/ Loaded.loser_id m = p)).
Proof.
  intros Hload. unfold extract_player_ids. rewrite Hload, bind_of_Ok.
  eexists. split; [done|]. split; [apply np_unique_sorted|].
  intros p. rewrite elem_of_np_unique, elem_of_app, !list_elem_of_fmap.
  split.
  - intros [(m & -> & Hm)|(m & -> & Hm)]; exists m; auto.
  - intros (m & Hm & [<-|<-]); [left|right]; by exists m.
Qed.

Lemma extract_player_ids_sorted_and_exact_witness :
  exists players,
    extract_player_ids Sample.read_csv 2017 2018 = Ok players
    /\ StronglySorted Z.lt players.
Proof.
  destruct (extract_player_ids_sorted_and_exact Sample.read_csv 2017 2018
              (keep_columns
                 <$> mjoin (py_range 2017 2019 ≫= year_frames Sample.read_csv)))
    as (players & Hplayers & Hsorted & _).
  - vm_compute. reflexivity.
  - exists players. split; [exact Hplayers | exact Hsorted].
Defined.

Example extract_player_ids_sample :
  extract_player_ids Sample.read_csv 2017 2018 = Ok [2; 4; 7; 9].
Proof. vm_compute. reflexivity. Qed.

Lemma filter_all {A} (P : A -> Prop) `{forall x, Decision (P x)} (xs : list A) :
  Forall P xs -> filter P xs = xs.
Proof.
  induction 1 as [|x xs Hx Hall IH]; [done|].
  rewrite filter_cons_True by done. by rewrite IH.
Qed.

(** X13: filtering the matches of a range of years by the players
    extracted from the same range removes nothing. *)
Theorem extracted_players_keep_every_match read_csv years_from years_to players :
  extract_player_ids read_csv years_from years_to = Ok players ->
  load_matches read_csv years_from years_to (Some players)
  = load_matches read_csv years_from years_to None.
Proof.
  intros Hextract.
  destruct (decide (years_to < years_from)) as [Hlt|Hle].
  { unfold extract_player_ids in Hextract.
    rewrite load_matches_empty in Hextract by done. discriminate. }
  apply Z.nlt_ge in Hle.
  unfold extract_player_ids in Hextract.
  rewrite !load_matches_Ok in * by done. rewrite bind_of_Ok in Hextract.
  injection Hextract as <-. f_equal. f_equal. simpl.
  apply filter_all. apply Forall_forall. intros m Hm. left.
  apply elem_of_np_unique, elem_of_app. left.
  apply list_elem_of_fmap. exists (keep_columns m). split; [done|].
  apply list_elem_of_fmap. by exists m.
Qed.

Lemma extracted_players_keep_every_match_witness :
  load_matches Sample.read_csv 2017 2018 (Some [2; 4; 7; 9])
  = load_matches Sample.read_csv 2017 2018 None.
Proof.
  apply (extracted_players_keep_every_match Sample.read_csv 2017 2018
           [2; 4; 7; 9]).
  vm_compute. reflexivity.
Defined.

Example load_matches_sample :
  (Loaded.winner_id <$>
     match load_matches Sample.read_csv 2017 2018 (Some [4]) with
     | Ok ms => ms
     | Raise _ => []
     end) = [7; 4; 2].
Proof. vm_compute. reflexivity. Qed.

(** X14: for a date of the calendar in the base year, [get_time_weight]
    counts between 1 and 366 days to the next first of January, so with
    [sign = 1] the exponent lies between -366/1095 and 0, 0 excluded. *)
Theorem time_delta_within_base_year (d : date) :
  valid_date d ->
  1 <= time_delta (year d) d <= 366
  /\ (- (366 # 1095) <= time_weight_exponent (year d) d 1 < 0)%Q.
Proof.
  intros [Hm Hd].
  assert (1 <= time_delta (year d) d <= 366) as Hdelta.
  { destruct d as [y m dd]. simpl in *.
    unfold time_delta, days_from_civil, days_in_month, is_leap in *. simpl.
    assert (m = 1 \/ m = 2 \/ m = 3 \/ m = 4 \/ m = 5 \/ m = 6 \/ m = 7
            \/ m = 8 \/ m = 9 \/ m = 10 \/ m = 11 \/ m = 12) as Hcase by lia.
    destruct Hcase as [-> | [-> | [-> | [-> | [-> | [-> | [-> | [-> | [-> |
                      [-> | [-> | ->]]]]]]]]]]]; simpl in *.
    all: destruct (y mod 4 =? 0) eqn:E4; destruct (y mod 100 =? 0) eqn:E100;
      destruct (y mod 400 =? 0) eqn:E400; simpl in *;
      Z.to_euclidean_division_equations; lia. }
  split; [done|].
  unfold time_weight_exponent.
  set (delta := time_delta (year d) d) in *. clearbody delta.
  change (365 * 3) with (Z.pos 1095). rewrite <- Qmake_Qdiv.
  unfold Qle, Qlt. cbn [Qnum Qden Qopp]. lia.
Qed.

Lemma time_delta_within_base_year_witness :
  1 <= time_delta 2018 (Date 2018 3 1) <= 366
  /\ (- (366 # 1095) <= time_weight_exponent 2018 (Date 2018 3 1) 1 < 0)%Q.
Proof.
  apply (time_delta_within_base_year (Date 2018 3 1)).
  unfold valid_date. cbn [year month day].
  change (days_in_month 2018 3) with 31. lia.
Defined.

Example time_delta_values :
  time_delta 2018 (Date 2018 3 1) = 306
  /\ time_delta 2018 (Date 2018 12 31) = 1
  /\ time_delta 2016 (Date 2016 1 1) = 366.
Proof. repeat split; reflexivity. Qed.

(** ** Invariants of the tables *)






























(** ** Bounds and closed forms of features *)

(** Inversion of read_features *)













(** ** The window at the end of a run *)











(** ** Players in the other order *)



Example swapped_features_of_the_first_match :
  symmetric_features Sample.features
  = [VInt 8; VInt 10; VInt 0; VInt 0; VInt 0; VInt (-3); VInt (-400)]
  /\ symmetric_features Sample.features_swapped
     = [VInt (-8); VInt (-10); VInt 0; VInt 0; VInt 0; VInt 3; VInt 400].
Proof. split; vm_compute; reflexivity. Qed.
